(** * pandapower/powerflow.py: the power-flow orchestrator

    A shallow embedding of [_powerflow], [_recycled_powerflow],
    [_run_pf_algorithm], [_ppci_to_net] and [_pf_without_branches].

    The orchestrator mutates the network dictionary [net] and raises Python
    exceptions, so the functions live in a state-and-exception monad over a
    [World]: the network plus the ordered record of calls made to code
    outside this file (builder, solver backends, result handling, numpy).
    A raised exception keeps the state reached so far, as in Python. *)

From Stdlib Require Import ZArith List String Bool Lia.
From stdpp Require Import base gmap strings pretty.
Import ListNotations.
Local Open Scope Z_scope.
Local Open Scope string_scope.

(** ** Data model *)

(** [net["_options"]].  [recycle] is [None] or a dict of flags. *)
Record Options := mkOptions {
  init_results : bool;
  ac : bool;
  algorithm : string;
  voltage_depend_loads : bool;
  max_iteration : Z;
  mode : string;
  recycle : option (gmap string bool)
}.

Definition set_voltage_depend_loads (b : bool) (o : Options) : Options :=
  mkOptions (init_results o) (ac o) (algorithm o) b (max_iteration o)
            (mode o) (recycle o).

(** Python exceptions raised in or through this file, and the outcome of a
    call. *)
Inductive exn :=
| AlgorithmUnknown (msg : string)
| LoadflowNotConverged (msg : string)
| ValueError (msg : string)
| TypeError (msg : string)
| KeyError (key : string).

Inductive outcome (A : Type) :=
| Ok (a : A)
| Raise (e : exn).
Arguments Ok {A} a.
Arguments Raise {A} e.

Section Model.

(** Types owned by code outside this file: numpy arrays, Python floats and
    the element and result tables of the network. *)
Context {ndarray float tables : Type}.

(** A Python number: [ppci["et"] = 0] stores an int, the backends store a
    float. *)
Inductive pynum :=
| PyInt (z : Z)
| PyFloat (x : float).

(** [ppc["internal"]]: the sub-dictionary kept between solves.  The four
    entries read by the recycled solve may be missing before the first
    build; the admittance matrices and other scratch arrays are [i_scratch]. *)
Record Internal := mkInternal {
  i_bus : option ndarray;
  i_gen : option ndarray;
  i_branch : option ndarray;
  i_baseMVA : option pynum;
  i_scratch : gmap string ndarray
}.

(** A case dictionary, used for [ppc], [ppci] and the solve result (which
    is the [ppci] with results).  [success] is a Python bool or int; [True]
    is the integer 1, [False] the integer 0.  The three result keys are
    absent until a solver writes them. *)
Record Case := mkCase {
  bus : ndarray;
  gen : ndarray;
  branch : ndarray;
  baseMVA : pynum;
  internal : Internal;
  success : option Z;
  iterations : option Z;
  et : option pynum
}.

(** The network.  [_ppc] is [None] until a case has been stored. *)
Record Net := mkNet {
  _options : Options;
  converged : bool;
  OPF_converged : bool;
  _ppc : option Case;
  _pd2ppc_lookups : gmap string (gmap string (Z * Z));
  elements : tables
}.

Definition set__options (o : Options) (n : Net) : Net :=
  mkNet o (converged n) (OPF_converged n) (_ppc n) (_pd2ppc_lookups n)
        (elements n).

Definition set_converged (b : bool) (n : Net) : Net :=
  mkNet (_options n) b (OPF_converged n) (_ppc n) (_pd2ppc_lookups n)
        (elements n).

Definition set_OPF_converged (b : bool) (n : Net) : Net :=
  mkNet (_options n) (converged n) b (_ppc n) (_pd2ppc_lookups n)
        (elements n).

Definition set__ppc (p : option Case) (n : Net) : Net :=
  mkNet (_options n) (converged n) (OPF_converged n) p (_pd2ppc_lookups n)
        (elements n).

Definition set_gen (g : ndarray) (c : Case) : Case :=
  mkCase (bus c) g (branch c) (baseMVA c) (internal c) (success c)
         (iterations c) (et c).

Definition set_internal (i : Internal) (c : Case) : Case :=
  mkCase (bus c) (gen c) (branch c) (baseMVA c) i (success c)
         (iterations c) (et c).

(** What a callee that was handed the object stored under a dictionary key
    can have done to it: it can fill the object in place when there is one;
    it cannot bind the key, so [None] stays [None] and a stored object
    stays an object. *)
Definition written_through (before after : option Case) : option Case :=
  match before, after with
  | Some _, Some p => Some p
  | _, _ => before
  end.

(** The eleven values returned by [_get_pf_variables_from_ppci], in the
    order of the tuple. *)
Record PfVariables := mkPfVariables {
  v_baseMVA : pynum;
  v_bus : ndarray;
  v_gen : ndarray;
  v_branch : ndarray;
  v_ref : ndarray;
  v_pv : ndarray;
  v_pq : ndarray;
  v_on : ndarray;
  v_gbus : ndarray;
  v_V0 : ndarray;
  v_ref_gens : ndarray
}.

(** ** Calls that leave this file *)

Inductive call :=
| C_add_auxiliary_elements
| C_verify_results
| C_reset_results
| C_pd2ppc (net_at_call : Net)
| C_run_bfswpf (ppci : Case)
| C_run_newton_raphson_pf (ppci : Case)
| C_runpf_pypower (ppci : Case)
| C_run_dc_pf (ppci : Case)
| C_makeYbus
| C_get_pf_variables_from_ppci
| C_pfsoln
| C_copy_results_ppci_to_ppc (result : Case)
| C_extract_results
| C_clean_up (res : bool)
| C_calc_pq_elements_and_add_on_ppc
| C_calc_trafo_parameter
| C_calc_trafo3w_parameter
| C_build_gen_ppc
| C_nan_to_num
| C_ppc2ppci.

(** The four solver backends behind the dispatcher. *)
Definition is_backend (c : call) : bool :=
  match c with
  | C_run_bfswpf _ | C_run_newton_raphson_pf _
  | C_runpf_pypower _ | C_run_dc_pf _ => true
  | _ => false
  end.

(** The imported functions and constants.  A function that is handed [net]
    alone may change anything in it; a function that is handed [net] and
    the case [ppc] fills [ppc] in place and is given by the new [ppc]; the
    backends are given by the result they return. *)
Record Collaborators := mkCollaborators {
  _add_auxiliary_elements : Net -> Net;
  verify_results : Net -> Net;
  reset_results : Net -> Net;
  _pd2ppc : Net -> (Case * Case) * Net;
  _run_bfswpf : Case -> Options -> gmap string Z -> Case * bool;
  _run_newton_raphson_pf : Case -> Options -> Case;
  _runpf_pypower : Case -> Options -> gmap string Z -> Case * bool;
  _run_dc_pf : Case -> Case;
  makeYbus_pypower : pynum -> ndarray -> ndarray -> ndarray * ndarray * ndarray;
  _get_pf_variables_from_ppci : Case -> PfVariables;
  pfsoln_pypower :
    pynum -> ndarray -> ndarray -> ndarray -> ndarray -> ndarray -> ndarray ->
    ndarray -> ndarray -> ndarray -> ndarray * ndarray * ndarray;
  _copy_results_ppci_to_ppc :
    Case -> option Case -> string -> Case * option Case;
  _extract_results : Net -> Case -> Net;
  _clean_up : Net -> bool -> Net;
  _calc_pq_elements_and_add_on_ppc : Net -> Case -> Case;
  _calc_trafo_parameter : Net -> Case -> Case;
  _calc_trafo3w_parameter : Net -> Case -> Case;
  _build_gen_ppc : Net -> Case -> Case;
  _ppc2ppci : Case -> Net -> Case -> Case;
  nan_to_num : ndarray -> ndarray;
  shape0 : ndarray -> nat;
  column : ndarray -> nat -> ndarray;
  VM : nat
}.

(** ** The monad *)

Record World := mkWorld {
  w_net : Net;
  w_log : list call
}.

Definition M (A : Type) : Type := World -> outcome A * World.

Definition ret {A} (a : A) : M A := fun w => (Ok a, w).

Definition bind {A B} (m : M A) (k : A -> M B) : M B :=
  fun w => match m w with
           | (Ok a, w') => k a w'
           | (Raise e, w') => (Raise e, w')
           end.

Definition raise {A} (e : exn) : M A := fun w => (Raise e, w).

Definition get_net : M Net := fun w => (Ok (w_net w), w).

Definition modify_net (f : Net -> Net) : M unit :=
  fun w => (Ok tt, mkWorld (f (w_net w)) (w_log w)).

Definition log_call (c : call) : M unit :=
  fun w => (Ok tt, mkWorld (w_net w) (w_log w ++ [c])).

End Model.

Arguments Options : clear implicits.
Arguments Internal : clear implicits.
Arguments Case : clear implicits.
Arguments Net : clear implicits.
Arguments PfVariables : clear implicits.
Arguments call : clear implicits.
Arguments Collaborators : clear implicits.
Arguments World : clear implicits.
Arguments M : clear implicits.
Arguments pynum : clear implicits.

Declare Scope py_scope.
Delimit Scope py_scope with py.
Notation "x <- m ;; k" := (bind m (fun x => k))
  (at level 100, m at next level, right associativity) : py_scope.
Notation "m ;; k" := (bind m (fun _ => k))
  (at level 100, right associativity) : py_scope.

(** ** The program *)

(** [s in [a, b, ...]] on strings. *)
Definition str_in (s : string) (l : list string) : bool :=
  existsb (String.eqb s) l.

(** ["key" in d and d["key"]] on a dict of flags. *)
Definition flag (key : string) (d : gmap string bool) : bool :=
  match d !! key with
  | Some b => b
  | None => false
  end.

(** ["key" in d]. *)
Definition has_key {V} (key : string) (d : gmap string V) : bool :=
  match d !! key with
  | Some _ => true
  | None => false
  end.

Section Program.

Context {ndarray float tables : Type}.
Variable X : Collaborators ndarray float tables.

Abbreviation Case := (Case ndarray float).
Abbreviation Net := (Net ndarray float tables).
Abbreviation M := (M ndarray float tables).
Abbreviation call := (call ndarray float tables).

Local Open Scope py_scope.

(** A call [f(net)] that works on the network in place. *)
Definition call_net (c : call) (f : Net -> Net) : M unit :=
  log_call c;; modify_net f.

(** A call [f(net, ppc)] where [ppc] is the object stored under
    [net["_ppc"]]: the update of [ppc] is seen through the network. *)
Definition call_net_ppc (c : call) (f : Net -> Case -> Case) (ppc : Case)
  : M Case :=
  log_call c;;
  n <- get_net;;
  let ppc := f n ppc in
  modify_net (set__ppc (Some ppc));;
  ret ppc.

(** A call that returns a value and leaves the network alone. *)
Definition call_pure {A} (c : call) (a : A) : M A :=
  log_call c;; ret a.

(** [d["key"]] on a dictionary entry that may be missing. *)
Definition item {A} (key : string) (o : option A) : M A :=
  match o with
  | Some a => ret a
  | None => raise (KeyError key)
  end.

Definition _pf_without_branches (ppci : Case) (options : Options) : M Case :=
  Y <- call_pure C_makeYbus
         (makeYbus_pypower X (baseMVA ppci) (bus ppci) (branch ppci));;
  let '(Ybus, Yf, Yt) := Y in
  v <- call_pure C_get_pf_variables_from_ppci
         (_get_pf_variables_from_ppci X ppci);;
  let V := column X (bus ppci) (VM X) in
  soln <- call_pure C_pfsoln
            (pfsoln_pypower X (v_baseMVA v) (v_bus v) (v_gen v) (v_branch v)
               Ybus Yf Yt V (v_ref v) (v_ref_gens v));;
  let '(bus', gen', branch') := soln in
  ret (mkCase bus' gen' branch' (baseMVA ppci) (internal ppci)
         (Some 1) (Some 1) (Some (PyInt 0))).

Definition _run_pf_algorithm (ppci : Case) (options : Options)
    (kwargs : gmap string Z) : M Case :=
  let algorithm := algorithm options in
  let ac := ac options in
  if ac then
    if Nat.eqb (shape0 X (branch ppci)) 0 then
      _pf_without_branches ppci options
    else if String.eqb algorithm "bfsw" then
      r <- call_pure (C_run_bfswpf ppci) (_run_bfswpf X ppci options kwargs);;
      ret (fst r)
    else if str_in algorithm ["nr"; "iwamoto_nr"] then
      call_pure (C_run_newton_raphson_pf ppci)
        (_run_newton_raphson_pf X ppci options)
    else if str_in algorithm ["fdbx"; "fdxb"; "gs"] then
      r <- call_pure (C_runpf_pypower ppci)
             (_runpf_pypower X ppci options kwargs);;
      ret (fst r)
    else
      raise (AlgorithmUnknown ("Algorithm " ++ algorithm ++ " is unknown!"))
  else
    call_pure (C_run_dc_pf ppci) (_run_dc_pf X ppci).

(** [ppc] at line 179 is the object stored under [net["_ppc"]], so what
    the merge writes into it is seen through the network before the
    success test; when nothing is stored ([None]) the merge has nothing to
    write into and [net["_ppc"]] stays [None]. *)
Definition _ppci_to_net (result : Case) : M unit :=
  n <- get_net;;
  let mode := mode (_options n) in
  let ppc := _ppc n in
  r <- call_pure (C_copy_results_ppci_to_ppc result)
         (_copy_results_ppci_to_ppc X result ppc mode);;
  modify_net (set__ppc (written_through ppc (snd r)));;
  let result := fst r in
  success_ <- item "success" (success result);;
  if negb (success_ =? 1)%Z then
    call_net (C_clean_up false) (fun n => _clean_up X n false);;
    n <- get_net;;
    let algorithm := algorithm (_options n) in
    let max_iteration := max_iteration (_options n) in
    raise (LoadflowNotConverged
             ("Power Flow " ++ algorithm ++ " did not converge after "
              ++ pretty max_iteration ++ " iterations!"))
  else
    modify_net (set__ppc (Some result));;
    modify_net (set_converged true);;
    call_net C_extract_results (fun n => _extract_results X n result);;
    call_net (C_clean_up true) (fun n => _clean_up X n true).

Definition _powerflow (kwargs : gmap string Z) : M unit :=
  n <- get_net;;
  let init_results := init_results (_options n) in
  let ac := ac (_options n) in
  let algorithm := algorithm (_options n) in
  modify_net (set_converged false);;
  modify_net (set_OPF_converged false);;
  call_net C_add_auxiliary_elements (_add_auxiliary_elements X);;
  (if negb ac || init_results
   then call_net C_verify_results (verify_results X)
   else call_net C_reset_results (reset_results X));;
  (if negb (str_in algorithm ["nr"; "bfsw"])
   then modify_net
          (fun n => set__options
                      (set_voltage_depend_loads false (_options n)) n)
   else ret tt);;
  n <- get_net;;
  r <- call_pure (C_pd2ppc n) (_pd2ppc X n);;
  modify_net (fun _ => snd r);;
  let '(ppc, ppci) := fst r in
  modify_net (set__ppc (Some ppc));;
  let kwargs := if has_key "VERBOSE" kwargs
                then kwargs else <["VERBOSE" := 0%Z]> kwargs in
  n <- get_net;;
  result <- _run_pf_algorithm ppci (_options n) kwargs;;
  _ppci_to_net result.

(** [ppc] at line 105 is the object stored under [net["_ppc"]]; the
    updates of lines 106-121 work on it in place. *)
Definition _recycled_powerflow (kwargs : gmap string Z) : M unit :=
  n <- get_net;;
  let options := _options n in
  let algorithm := algorithm options in
  let ac := ac options in
  stored <- match _ppc n with
            | Some p => ret p
            | None =>
                raise (TypeError "'NoneType' object is not subscriptable")
            end;;
  let i := internal stored in
  bus_ <- item "bus" (i_bus i);;
  gen_ <- item "gen" (i_gen i);;
  branch_ <- item "branch" (i_branch i);;
  baseMVA_ <- item "baseMVA" (i_baseMVA i);;
  let ppci := mkCase bus_ gen_ branch_ baseMVA_ i None None None in
  if negb ac then
    result <- call_pure (C_run_dc_pf ppci) (_run_dc_pf X ppci);;
    _ppci_to_net result
  else if negb (str_in algorithm ["nr"; "iwamoto_nr"]) && ac then
    raise (ValueError
             "recycle is only available with Newton-Raphson power flow. Choose algorithm='nr'")
  else
    recycle <- match recycle options with
               | Some d => ret d
               | None =>
                   raise (TypeError
                            "argument of type 'NoneType' is not iterable")
               end;;
    let ppc := stored in
    ppc <- (if flag "bus_pq" recycle
            then call_net_ppc C_calc_pq_elements_and_add_on_ppc
                   (_calc_pq_elements_and_add_on_ppc X) ppc
            else ret ppc);;
    ppc <- (if flag "trafo" recycle then
              n <- get_net;;
              lookup <- item "branch" (_pd2ppc_lookups n !! "branch");;
              ppc <- (if has_key "trafo" lookup
                      then call_net_ppc C_calc_trafo_parameter
                             (_calc_trafo_parameter X) ppc
                      else ret ppc);;
              (if has_key "trafo3w" lookup
               then call_net_ppc C_calc_trafo3w_parameter
                      (_calc_trafo3w_parameter X) ppc
               else ret ppc)
            else ret ppc);;
    ppc <- (if flag "gen" recycle then
              ppc <- call_net_ppc C_build_gen_ppc (_build_gen_ppc X) ppc;;
              g <- call_pure C_nan_to_num (nan_to_num X (gen ppc));;
              let ppc := set_gen g ppc in
              modify_net (set__ppc (Some ppc));;
              ret ppc
            else ret ppc);;
    n <- get_net;;
    ppci <- call_pure C_ppc2ppci (_ppc2ppci X ppc n ppci);;
    n <- get_net;;
    now_stored <- match _ppc n with
                  | Some p => ret p
                  | None =>
                      raise (TypeError
                               "'NoneType' object is not subscriptable")
                  end;;
    let ppci := set_internal (internal now_stored) ppci in
    modify_net (set__ppc (Some ppc));;
    result <- call_pure (C_run_newton_raphson_pf ppci)
                (_run_newton_raphson_pf X ppci options);;
    _ppci_to_net result.

End Program.

(** ** A reference set of collaborators

    Arrays are lists of integer rows and the tables are the names of the
    rows present in the network.  The builder makes one bus row per ["bus"]
    and one branch row per ["line"]; the Newton-Raphson and sweep backends
    converge when the iteration cap is at least 3; the DC backend always
    succeeds; the merge of a result keeps its [success]; cleanup removes the
    auxiliary generator and, with [res = False], the result table. *)

Module Sample.

Definition arr : Type := list (list Z).
Definition tbl : Type := list string.

Definition rows_of (name : string) (t : tbl) : arr :=
  map (fun _ => [0%Z; 0%Z; 0%Z; 0%Z; 0%Z; 0%Z; 0%Z; 1%Z])
      (List.filter (String.eqb name) t).

Definition drop (name : string) (t : tbl) : tbl :=
  List.filter (fun s => negb (String.eqb name s)) t.

Definition set_elements (t : tbl) (n : Net arr Z tbl) : Net arr Z tbl :=
  mkNet (_options n) (converged n) (OPF_converged n) (_ppc n)
        (_pd2ppc_lookups n) t.

Definition empty_internal : Internal arr Z :=
  mkInternal None None None None ∅.

Definition build (n : Net arr Z tbl) : Case arr Z :=
  mkCase (rows_of "bus" (elements n)) (rows_of "gen" (elements n))
         (rows_of "line" (elements n)) (PyInt 1) empty_internal
         None None None.

Definition solved (ok : bool) (iters : Z) (c : Case arr Z) : Case arr Z :=
  mkCase (bus c) (gen c) (branch c) (baseMVA c)
         (mkInternal (Some (bus c)) (Some (gen c)) (Some (branch c))
                     (Some (baseMVA c)) (i_scratch (internal c)))
         (Some (if ok then 1%Z else 0%Z)) (Some iters) (Some (PyFloat 0%Z)).

Definition iterate (c : Case arr Z) (o : Options) : Case arr Z :=
  solved (3 <=? max_iteration o)%Z (Z.min 3 (max_iteration o)) c.

Definition X : Collaborators arr Z tbl :=
  {| _add_auxiliary_elements :=
       fun n => set_elements ("dcline_gen" :: elements n) n;
     verify_results := fun n => n;
     reset_results := fun n => set_elements (drop "res_bus" (elements n)) n;
     _pd2ppc := fun n => ((build n, build n), n);
     _run_bfswpf := fun c o _ => (iterate c o, (3 <=? max_iteration o)%Z);
     _run_newton_raphson_pf := iterate;
     _runpf_pypower := fun c o _ => (iterate c o, (3 <=? max_iteration o)%Z);
     _run_dc_pf := solved true 1;
     makeYbus_pypower := fun _ _ _ => ([], [], []);
     _get_pf_variables_from_ppci :=
       fun c => mkPfVariables (baseMVA c) (bus c) (gen c) (branch c)
                  [] [] [] [] [] [] [];
     pfsoln_pypower := fun _ b g br _ _ _ _ _ _ => (b, g, br);
     _copy_results_ppci_to_ppc := fun r _ _ => (r, Some r);
     _extract_results :=
       fun n _ => set_elements ("res_bus" :: elements n) n;
     _clean_up :=
       fun n res =>
         let t := drop "dcline_gen" (elements n) in
         set_elements (if res then t else drop "res_bus" t) n;
     _calc_pq_elements_and_add_on_ppc := fun _ c => c;
     _calc_trafo_parameter := fun _ c => c;
     _calc_trafo3w_parameter := fun _ c => c;
     _build_gen_ppc := fun _ c => c;
     _ppc2ppci := fun _ _ ppci => ppci;
     nan_to_num := fun a => a;
     shape0 := fun a => length a;
     column := fun a j => map (fun r => [nth j r 0%Z]) a;
     VM := 7 |}.

Definition options (alg : string) (is_ac : bool) (cap : Z)
    (flags : option (gmap string bool)) : Options :=
  mkOptions false is_ac alg true cap "pf" flags.

(** A network with two buses, one line and one generator that has never
    been solved. *)
Definition fresh (o : Options) : Net arr Z tbl :=
  mkNet o false false None ∅ ["bus"; "bus"; "line"; "gen"].

(** Two isolated buses. *)
Definition islands (o : Options) : Net arr Z tbl :=
  mkNet o false false None ∅ ["bus"; "bus"].

(** The same two-bus network after a converged full solve: the stored case
    carries the populated [internal] entries and [converged] is set. *)
Definition stored_case : Case arr Z :=
  solved true 3 (build (fresh (options "nr" true 10 None))).

Definition solved_before (o : Options) : Net arr Z tbl :=
  mkNet o true false (Some stored_case) {[ "branch" := {[ "line" := (0%Z, 1%Z) ]} ]}
        ["bus"; "bus"; "line"; "gen"; "res_bus"].

Definition start (n : Net arr Z tbl) : World arr Z tbl := mkWorld n [].

Definition no_kwargs : gmap string Z := ∅.

(** The reduced cases the builder makes for the two networks. *)
Definition one_branch_case : Case arr Z :=
  build (fresh (options "nr" true 10 None)).

Definition no_branch_case : Case arr Z :=
  build (islands (options "nr" true 10 None)).

(** The Newton-Raphson result for the one-branch case under a cap of one
    iteration: not converged. *)
Definition failed_result : Case arr Z :=
  iterate one_branch_case (options "nr" true 1 None).

(** A network whose stored case kept only the [bus] and [gen] entries of
    its [internal] dictionary. *)
Definition half_built_case : Case arr Z :=
  mkCase (bus stored_case) (gen stored_case) (branch stored_case)
         (baseMVA stored_case)
         (mkInternal (Some (bus stored_case)) (Some (gen stored_case))
                     None None ∅)
         None None None.

Definition half_built (o : Options) : Net arr Z tbl :=
  mkNet o false false (Some half_built_case) ∅
        ["bus"; "bus"; "line"; "gen"].

(** A solved network whose lookups were dropped: the stored case is there
    but [net._pd2ppc_lookups] has no ["branch"] entry. *)
Definition solved_without_lookups (o : Options) : Net arr Z tbl :=
  mkNet o true false (Some stored_case) ∅
        ["bus"; "bus"; "line"; "gen"; "res_bus"].

End Sample.


(** ** Vocabulary of the properties *)

Section Vocabulary.

Context {ndarray float tables : Type}.
Variable X : Collaborators ndarray float tables.

Abbreviation Case := (Case ndarray float).
Abbreviation Net := (Net ndarray float tables).
Abbreviation call := (call ndarray float tables).

(** A prior full build is stored on the network: [net["_ppc"]] is a case
    whose [internal] entries [bus], [gen], [branch] and [baseMVA] exist. *)
Definition has_prior_build (n : Net) : bool :=
  match _ppc n with
  | Some p =>
      match i_bus (internal p), i_gen (internal p),
            i_branch (internal p), i_baseMVA (internal p) with
      | Some _, Some _, Some _, Some _ => true
      | _, _, _, _ => false
      end
  | None => false
  end.

(** The reduced case the recycled solve assembles from the stored
    [internal] entries (lines 90-95). *)
Definition recycled_ppci (n : Net) : option Case :=
  match _ppc n with
  | Some p =>
      match i_bus (internal p), i_gen (internal p),
            i_branch (internal p), i_baseMVA (internal p) with
      | Some b, Some g, Some br, Some mva =>
          Some (mkCase b g br mva (internal p) None None None)
      | _, _, _, _ => None
      end
  | None => None
  end.

(** The network as lines 47-54 of [_powerflow] leave it: both convergence
    flags cleared, auxiliary elements added, result tables verified or
    reset. *)
Definition cleared (n : Net) : Net :=
  let n1 := _add_auxiliary_elements X
              (set_OPF_converged false (set_converged false n)) in
  if negb (ac (_options n)) || init_results (_options n)
  then verify_results X n1
  else reset_results X n1.

(** The call made at lines 51-54. *)
Definition results_call (n : Net) : call :=
  if negb (ac (_options n)) || init_results (_options n)
  then C_verify_results
  else C_reset_results.

(** The case returned by the merge at line 180, and the case stored under
    [net["_ppc"]] once the merge has written into it. *)
Definition merged (result : Case) (w : World ndarray float tables)
  : Case * option Case :=
  (fst (_copy_results_ppci_to_ppc X result (_ppc (w_net w))
          (mode (_options (w_net w)))),
   written_through (_ppc (w_net w))
     (snd (_copy_results_ppci_to_ppc X result (_ppc (w_net w))
             (mode (_options (w_net w)))))).

(** The network handed to the builder at line 61: [cleared], with
    [voltage_depend_loads] set to [False] when the algorithm read at entry
    is neither nr nor bfsw. *)
Definition handed_to_builder (n : Net) : Net :=
  let n1 := cleared n in
  if negb (str_in (algorithm (_options n)) ["nr"; "bfsw"])
  then set__options (set_voltage_depend_loads false (_options n1)) n1
  else n1.

(** The world in which [_powerflow] calls the dispatcher: the builder has
    run and its full case is stored under [net["_ppc"]]. *)
Definition built_world (w : World ndarray float tables)
  : World ndarray float tables :=
  let nb := handed_to_builder (w_net w) in
  let built := _pd2ppc X nb in
  mkWorld (set__ppc (Some (fst (fst built))) (snd built))
    (w_log w ++ [C_add_auxiliary_elements; results_call (w_net w);
                 C_pd2ppc nb]).

(** The keyword arguments after line 66-67. *)
Definition with_verbose (kwargs : gmap string Z) : gmap string Z :=
  if has_key "VERBOSE" kwargs then kwargs else <["VERBOSE" := 0%Z]> kwargs.

(** Frame conditions on collaborators, used as hypotheses where a property
    depends on them. *)

(** Adding auxiliary elements and verifying or resetting the result tables
    leaves [net["_options"]] alone. *)
Definition preparation_keeps_options : Prop :=
  (forall n, _options (_add_auxiliary_elements X n) = _options n) /\
  (forall n, _options (verify_results X n) = _options n) /\
  (forall n, _options (reset_results X n) = _options n).

(** The merge of a solve result into the full case copies [success]. *)
Definition merge_keeps_success : Prop :=
  forall result ppc mode,
    success (fst (_copy_results_ppci_to_ppc X result ppc mode))
    = success result.

(** Cleanup leaves [net["_options"]] alone. *)
Definition clean_up_keeps_options : Prop :=
  forall n res, _options (_clean_up X n res) = _options n.

(** Nothing but the orchestrator writes [net["converged"]]. *)
Definition collaborators_keep_converged : Prop :=
  (forall n, converged (_add_auxiliary_elements X n) = converged n) /\
  (forall n, converged (verify_results X n) = converged n) /\
  (forall n, converged (reset_results X n) = converged n) /\
  (forall n, converged (snd (_pd2ppc X n)) = converged n) /\
  (forall n r, converged (_extract_results X n r) = converged n) /\
  (forall n res, converged (_clean_up X n res) = converged n).

(** The parameter updates a recycled Newton solve performs for the flags
    [rc] and the branch lookup [lk] (lines 106-121), in call order. *)
Definition recycle_updates (rc : gmap string bool)
    (lk : gmap string (Z * Z)) : list call :=
  (if flag "bus_pq" rc then [C_calc_pq_elements_and_add_on_ppc] else [])
  ++ (if flag "trafo" rc then
        (if has_key "trafo" lk then [C_calc_trafo_parameter] else [])
        ++ (if has_key "trafo3w" lk then [C_calc_trafo3w_parameter] else [])
      else [])
  ++ (if flag "gen" rc then [C_build_gen_ppc; C_nan_to_num] else []).

(** More frame conditions, and the contract of the DC backend. *)

(** The DC backend reports success (the comment at line 182: "If DC ->
    success is always 1"). *)
Definition dc_reports_success : Prop :=
  forall ppci, success (_run_dc_pf X ppci) = Some 1%Z.


(** Nothing but the orchestrator writes [net["OPF_converged"]]. *)
Definition collaborators_keep_OPF_converged : Prop :=
  (forall n, OPF_converged (_add_auxiliary_elements X n) = OPF_converged n) /\
  (forall n, OPF_converged (verify_results X n) = OPF_converged n) /\
  (forall n, OPF_converged (reset_results X n) = OPF_converged n) /\
  (forall n, OPF_converged (snd (_pd2ppc X n)) = OPF_converged n) /\
  (forall n r, OPF_converged (_extract_results X n r) = OPF_converged n) /\
  (forall n res, OPF_converged (_clean_up X n res) = OPF_converged n).

(** Extraction and cleanup leave the case stored under [net["_ppc"]]
    alone. *)
Definition results_keep_ppc : Prop :=
  (forall n r, _ppc (_extract_results X n r) = _ppc n) /\
  (forall n res, _ppc (_clean_up X n res) = _ppc n).

(** Classes of calls. *)

(** The calls of a full build: auxiliary elements, result tables, builder. *)
Definition is_full_build_call (c : call) : bool :=
  match c with
  | C_add_auxiliary_elements | C_verify_results | C_reset_results
  | C_pd2ppc _ => true
  | _ => false
  end.

(** The calls the dispatcher can make: a backend or the numeric helpers of
    the branch-less path. *)
Definition is_solver_call (c : call) : bool :=
  match c with
  | C_run_bfswpf _ | C_run_newton_raphson_pf _
  | C_runpf_pypower _ | C_run_dc_pf _
  | C_makeYbus | C_get_pf_variables_from_ppci | C_pfsoln => true
  | _ => false
  end.

(** A computation whose every run appends to the record of calls, and
    appends only calls of class [P]. *)
Definition calls_only {A} (P : call -> bool)
    (m : M ndarray float tables A) : Prop :=
  forall w, exists new,
    w_log (snd (m w)) = (w_log w ++ new)%list /\ forallb P new = true.

End Vocabulary.

(** ** Properties *)

Lemma str_in_In (s : string) (l : list string) :
  str_in s l = true <-> In s l.
Proof.
  unfold str_in. rewrite existsb_exists. split.
  - intros (x & Hx & He). apply String.eqb_eq in He. now subst.
  - intros H. exists s. split; [exact H | apply String.eqb_refl].
Qed.

Lemma str_in_false (s : string) (l : list string) :
  ~ In s l -> str_in s l = false.
Proof.
  intros H. destruct (str_in s l) eqn:E; [|reflexivity].
  apply str_in_In in E. contradiction.
Qed.

Ltac run :=
  cbv [bind ret raise get_net modify_net log_call call_net call_pure
       call_net_ppc item]; cbn [fst snd w_net w_log].

Section Dispatcher.

Context {ndarray float tables : Type}.
Variable X : Collaborators ndarray float tables.

Abbreviation Case := (Case ndarray float).
Abbreviation World := (World ndarray float tables).

(** The branch-less path logs its three numeric calls and returns a case
    marked successful after one iteration. *)
Lemma pf_without_branches_run (ppci : Case) (options : Options) (w : World) :
  exists r,
    _pf_without_branches X ppci options w
    = (Ok r, mkWorld (w_net w)
               (w_log w ++ [C_makeYbus; C_get_pf_variables_from_ppci;
                            C_pfsoln]))
    /\ success r = Some 1%Z /\ iterations r = Some 1%Z
    /\ et r = Some (PyInt 0).
Proof.
  unfold _pf_without_branches. run.
  destruct (makeYbus_pypower X _ _ _) as [[Ybus Yf] Yt].
  destruct (pfsoln_pypower X _ _ _ _ _ _ _ _ _ _) as [[b g] br].
  cbn [w_net w_log]. rewrite <- !app_assoc. cbn [app].
  eexists. split; [reflexivity|]. cbn. auto.
Qed.

(** C3: with [ac] true and a branch array of zero rows the dispatcher takes
    the branch-less path whatever the algorithm name, the bus count or the
    generators: it returns, the result has [success = True],
    [iterations = 1] and [et = 0], and no solver backend is called. *)
Theorem branchless_dispatch_succeeds
    (ppci : Case) (options : Options) (kwargs : gmap string Z) (w : World) :
  ac options = true ->
  shape0 X (branch ppci) = 0%nat ->
  exists r,
    _run_pf_algorithm X ppci options kwargs w
    = (Ok r, mkWorld (w_net w)
               (w_log w ++ [C_makeYbus; C_get_pf_variables_from_ppci;
                            C_pfsoln]))
    /\ success r = Some 1%Z /\ iterations r = Some 1%Z
    /\ et r = Some (PyInt 0).
Proof.
  intros Hac Hrows. unfold _run_pf_algorithm. rewrite Hac, Hrows.
  cbn [Nat.eqb]. apply pf_without_branches_run.
Qed.

(** C4: with [ac] true, at least one branch row and an algorithm name
    outside nr, iwamoto_nr, bfsw, fdbx, fdxb, gs, the dispatcher raises
    [AlgorithmUnknown]; the world is the one it was given, so no backend
    has been called. *)
Theorem unknown_algorithm_rejected
    (ppci : Case) (options : Options) (kwargs : gmap string Z) (w : World) :
  ac options = true ->
  shape0 X (branch ppci) <> 0%nat ->
  ~ In (algorithm options) ["nr"; "iwamoto_nr"; "bfsw"; "fdbx"; "fdxb"; "gs"] ->
  _run_pf_algorithm X ppci options kwargs w
  = (Raise (AlgorithmUnknown
              ("Algorithm " ++ algorithm options ++ " is unknown!")), w).
Proof.
  intros Hac Hrows Hname. unfold _run_pf_algorithm. rewrite Hac.
  apply Nat.eqb_neq in Hrows. rewrite Hrows.
  assert (String.eqb (algorithm options) "bfsw" = false) as ->.
  { apply String.eqb_neq. intros E. apply Hname. rewrite E. cbn. tauto. }
  rewrite (str_in_false _ ["nr"; "iwamoto_nr"]),
          (str_in_false _ ["fdbx"; "fdxb"; "gs"]).
  - reflexivity.
  - intros H. apply Hname. cbn in *. tauto.
  - intros H. apply Hname. cbn in *. tauto.
Qed.

(** C7 (amended): the dispatcher tests [ac] before the branch count.  For a
    case with zero branch rows, [ac] false sends it to the DC backend and
    only [ac] true takes the branch-less path. *)
Theorem zero_branch_dispatch_tests_ac_first
    (ppci : Case) (options : Options) (kwargs : gmap string Z) (w : World) :
  shape0 X (branch ppci) = 0%nat ->
  let r := _run_pf_algorithm X ppci options kwargs w in
  w_log (snd r)
  = (w_log w ++ (if ac options
                 then [C_makeYbus; C_get_pf_variables_from_ppci; C_pfsoln]
                 else [C_run_dc_pf ppci]))%list
  /\ (ac options = false -> fst r = Ok (_run_dc_pf X ppci)).
Proof.
  intros Hrows r. subst r. unfold _run_pf_algorithm.
  destruct (ac options) eqn:Hac.
  - rewrite Hrows. cbn [Nat.eqb].
    destruct (pf_without_branches_run ppci options w) as (res & -> & _).
    split; [reflexivity | discriminate].
  - run. auto.
Qed.

(** C10: with [ac] false the dispatcher calls the DC backend on the case and
    returns its result; the algorithm name is not looked at, so no name
    makes it raise [AlgorithmUnknown]. *)
Theorem dc_dispatch_ignores_algorithm
    (ppci : Case) (options : Options) (kwargs : gmap string Z) (w : World) :
  ac options = false ->
  _run_pf_algorithm X ppci options kwargs w
  = (Ok (_run_dc_pf X ppci),
     mkWorld (w_net w) (w_log w ++ [C_run_dc_pf ppci])).
Proof.
  intros Hac. unfold _run_pf_algorithm. rewrite Hac. reflexivity.
Qed.

End Dispatcher.

Section Commit.

Context {ndarray float tables : Type}.
Variable X : Collaborators ndarray float tables.

Abbreviation Case := (Case ndarray float).
Abbreviation World := (World ndarray float tables).

(** The commit of a result whose merged [success] is 1. *)
Lemma ppci_to_net_success (result : Case) (w : World) :
  success (fst (merged X result w)) = Some 1%Z ->
  _ppci_to_net X result w
  = (Ok tt,
     mkWorld
       (_clean_up X
          (_extract_results X
             (set_converged true
                (set__ppc (Some (fst (merged X result w))) (w_net w)))
             (fst (merged X result w)))
          true)
       (w_log w ++ [C_copy_results_ppci_to_ppc result; C_extract_results;
                    C_clean_up true])).
Proof.
  unfold merged. cbn [fst snd]. intros Hs. unfold _ppci_to_net. run.
  rewrite Hs.
  cbn. rewrite <- !app_assoc. reflexivity.
Qed.

(** The commit of a result whose merged [success] is not 1. *)
Lemma ppci_to_net_failure (result : Case) (w : World) (s : Z) :
  success (fst (merged X result w)) = Some s ->
  s <> 1%Z ->
  let n := _clean_up X (set__ppc (snd (merged X result w)) (w_net w)) false in
  _ppci_to_net X result w
  = (Raise (LoadflowNotConverged
              ("Power Flow " ++ algorithm (_options n)
               ++ " did not converge after "
               ++ pretty (max_iteration (_options n)) ++ " iterations!")),
     mkWorld n (w_log w ++ [C_copy_results_ppci_to_ppc result;
                            C_clean_up false])).
Proof.
  unfold merged. cbn [fst snd]. intros Hs Hne. unfold _ppci_to_net. run.
  rewrite Hs.
  apply Z.eqb_neq in Hne. rewrite Hne.
  cbn. rewrite <- !app_assoc. reflexivity.
Qed.

(** The commit of a result that carries no [success] key. *)
Lemma ppci_to_net_no_success (result : Case) (w : World) :
  success (fst (merged X result w)) = None ->
  _ppci_to_net X result w
  = (Raise (KeyError "success"),
     mkWorld (set__ppc (snd (merged X result w)) (w_net w))
       (w_log w ++ [C_copy_results_ppci_to_ppc result])).
Proof.
  unfold merged. cbn [fst snd]. intros Hs. unfold _ppci_to_net. run.
  rewrite Hs.
  reflexivity.
Qed.

(** C2: for a solve result whose [success] is not 1, [_ppci_to_net] merges,
    runs [_clean_up(net, res=False)] and raises [LoadflowNotConverged] with
    the configured algorithm name and iteration cap in the message; the
    only calls made are the merge and the cleanup, so result extraction is
    not run. *)
Theorem failed_solve_cleans_up_then_raises
    (result : Case) (w : World) (s : Z) :
  merge_keeps_success X ->
  clean_up_keeps_options X ->
  success result = Some s ->
  s <> 1%Z ->
  _ppci_to_net X result w
  = (Raise (LoadflowNotConverged
              ("Power Flow " ++ algorithm (_options (w_net w))
               ++ " did not converge after "
               ++ pretty (max_iteration (_options (w_net w)))
               ++ " iterations!")),
     mkWorld
       (_clean_up X (set__ppc (snd (merged X result w)) (w_net w)) false)
       (w_log w ++ [C_copy_results_ppci_to_ppc result; C_clean_up false])).
Proof.
  intros Hmerge Hclean Hs Hne.
  rewrite (ppci_to_net_failure result w s); [| | exact Hne].
  - rewrite Hclean. reflexivity.
  - unfold merged. cbn [fst]. rewrite Hmerge. exact Hs.
Qed.


(** The commit never raises [ValueError]. *)
Lemma ppci_to_net_not_value_error (result : Case) (w : World) (msg : string) :
  fst (_ppci_to_net X result w) <> Raise (ValueError msg).
Proof.
  destruct (success (fst (merged X result w))) as [s|] eqn:Hs.
  - destruct (Z.eq_dec s 1) as [->|Hne].
    + rewrite ppci_to_net_success by exact Hs. discriminate.
    + rewrite (ppci_to_net_failure result w s Hs Hne). discriminate.
  - rewrite ppci_to_net_no_success by exact Hs. discriminate.
Qed.

(** The commit only appends to the record of calls. *)
Lemma ppci_to_net_log (result : Case) (w : World) :
  exists new,
    w_log (snd (_ppci_to_net X result w)) = (w_log w ++ new)%list.
Proof.
  destruct (success (fst (merged X result w))) as [s|] eqn:Hs.
  - destruct (Z.eq_dec s 1) as [->|Hne].
    + rewrite ppci_to_net_success by exact Hs. eexists. reflexivity.
    + rewrite (ppci_to_net_failure result w s Hs Hne). eexists. reflexivity.
  - rewrite ppci_to_net_no_success by exact Hs. eexists. reflexivity.
Qed.

(** The dispatcher only appends to the record of calls and does not touch
    the network; when it raises, the world is untouched and the exception
    is [AlgorithmUnknown] for a name that is not nr or bfsw. *)
Lemma run_pf_algorithm_cases
    (ppci : Case) (options : Options) (kwargs : gmap string Z) (w : World) :
  (exists r new,
      _run_pf_algorithm X ppci options kwargs w
      = (Ok r, mkWorld (w_net w) (w_log w ++ new)))
  \/ (_run_pf_algorithm X ppci options kwargs w
      = (Raise (AlgorithmUnknown
                  ("Algorithm " ++ algorithm options ++ " is unknown!")), w)
      /\ str_in (algorithm options) ["nr"; "bfsw"] = false).
Proof.
  unfold _run_pf_algorithm.
  destruct (ac options).
  - destruct (Nat.eqb _ _).
    + left. destruct (pf_without_branches_run X ppci options w)
        as (r & -> & _). eauto.
    + destruct (String.eqb (algorithm options) "bfsw") eqn:Eb.
      { left. run. eauto. }
      destruct (str_in (algorithm options) ["nr"; "iwamoto_nr"]) eqn:En.
      { left. run. eauto. }
      destruct (str_in (algorithm options) ["fdbx"; "fdxb"; "gs"]).
      { left. run. eauto. }
      right. split; [reflexivity|].
      cbn in En |- *. rewrite Eb.
      destruct (String.eqb (algorithm options) "nr"); [discriminate|].
      reflexivity.
  - left. run. eauto.
Qed.

(** A commit that raises [LoadflowNotConverged] leaves [net["converged"]]
    as it found it, provided cleanup does not write the flag. *)
Lemma ppci_to_net_failure_converged (result : Case) (w : World) (msg : string) :
  (forall n res, converged (_clean_up X n res) = converged n) ->
  fst (_ppci_to_net X result w) = Raise (LoadflowNotConverged msg) ->
  converged (w_net (snd (_ppci_to_net X result w))) = converged (w_net w).
Proof.
  intros Hclean.
  destruct (success (fst (merged X result w))) as [s|] eqn:Hs.
  - destruct (Z.eq_dec s 1) as [->|Hne].
    + rewrite ppci_to_net_success by exact Hs. discriminate.
    + rewrite (ppci_to_net_failure result w s Hs Hne). intros _.
      cbn [snd w_net]. rewrite Hclean. reflexivity.
  - rewrite ppci_to_net_no_success by exact Hs. discriminate.
Qed.

(** A commit that returns has set [net["converged"]], provided extraction
    and cleanup do not write the flag. *)
Lemma ppci_to_net_ok_converged (result : Case) (w : World) :
  (forall n r, converged (_extract_results X n r) = converged n) ->
  (forall n res, converged (_clean_up X n res) = converged n) ->
  fst (_ppci_to_net X result w) = Ok tt ->
  converged (w_net (snd (_ppci_to_net X result w))) = true.
Proof.
  intros Hext Hclean.
  destruct (success (fst (merged X result w))) as [s|] eqn:Hs.
  - destruct (Z.eq_dec s 1) as [->|Hne].
    + rewrite ppci_to_net_success by exact Hs. intros _.
      cbn [snd w_net]. rewrite Hclean, Hext. reflexivity.
    + rewrite (ppci_to_net_failure result w s Hs Hne). discriminate.
  - rewrite ppci_to_net_no_success by exact Hs. discriminate.
Qed.

(** A commit that raises anything leaves [net["converged"]] as it found
    it, under the same proviso. *)
Lemma ppci_to_net_raise_converged (result : Case) (w : World) (e : exn) :
  (forall n res, converged (_clean_up X n res) = converged n) ->
  fst (_ppci_to_net X result w) = Raise e ->
  converged (w_net (snd (_ppci_to_net X result w))) = converged (w_net w).
Proof.
  intros Hclean.
  destruct (success (fst (merged X result w))) as [s|] eqn:Hs.
  - destruct (Z.eq_dec s 1) as [->|Hne].
    + rewrite ppci_to_net_success by exact Hs. discriminate.
    + rewrite (ppci_to_net_failure result w s Hs Hne). intros _.
      cbn [snd w_net]. rewrite Hclean. reflexivity.
  - rewrite ppci_to_net_no_success by exact Hs. intros _.
    reflexivity.
Qed.

End Commit.

Section FullSolve.

Context {ndarray float tables : Type}.
Variable X : Collaborators ndarray float tables.

Abbreviation Case := (Case ndarray float).
Abbreviation World := (World ndarray float tables).

(** [_powerflow] is the preparation up to the builder, then the dispatcher
    on the reduced case, then the commit. *)
Lemma powerflow_unfold (kwargs : gmap string Z) (w : World) :
  _powerflow X kwargs w
  = bind (_run_pf_algorithm X
            (snd (fst (_pd2ppc X (handed_to_builder X (w_net w)))))
            (_options (w_net (built_world X w))) (with_verbose kwargs))
         (_ppci_to_net X) (built_world X w).
Proof.
  unfold _powerflow, built_world, handed_to_builder, cleared, results_call,
    with_verbose.
  run.
  destruct (negb (ac (_options (w_net w))) || init_results (_options (w_net w)));
    destruct (negb (str_in (algorithm (_options (w_net w))) ["nr"; "bfsw"]));
    run;
    destruct (_pd2ppc X _) as [[ppc ppci] nb'];
    cbn [fst snd w_net w_log]; rewrite <- !app_assoc; reflexivity.
Qed.

(** After the builder, [_powerflow] only appends to the record of calls. *)
Lemma powerflow_log (kwargs : gmap string Z) (w : World) :
  exists rest,
    w_log (snd (_powerflow X kwargs w))
    = (w_log (built_world X w) ++ rest)%list.
Proof.
  rewrite powerflow_unfold. unfold bind.
  destruct (run_pf_algorithm_cases X
              (snd (fst (_pd2ppc X (handed_to_builder X (w_net w)))))
              (_options (w_net (built_world X w))) (with_verbose kwargs)
              (built_world X w)) as [(r & new & ->) | [-> _]].
  - destruct (ppci_to_net_log X r
                (mkWorld (w_net (built_world X w))
                   (w_log (built_world X w) ++ new))) as (new' & ->).
    cbn [w_log]. exists (new ++ new')%list. apply eq_sym, app_assoc.
  - exists []. cbn [snd]. apply eq_sym, app_nil_r.
Qed.

Lemma handed_to_builder_options (n : Net ndarray float tables) :
  preparation_keeps_options X ->
  _options (handed_to_builder X n)
  = if str_in (algorithm (_options n)) ["nr"; "bfsw"]
    then _options n
    else set_voltage_depend_loads false (_options n).
Proof.
  intros (Haux & Hver & Hres).
  assert (_options (cleared X n) = _options n) as Hc.
  { unfold cleared.
    destruct (negb (ac (_options n)) || init_results (_options n));
      [rewrite Hver | rewrite Hres]; rewrite Haux; reflexivity. }
  unfold handed_to_builder.
  destruct (str_in (algorithm (_options n)) ["nr"; "bfsw"]); cbn [negb].
  - exact Hc.
  - cbn [set__options _options]. rewrite Hc. reflexivity.
Qed.

(** C9: in every full solve the builder is called, third, on a network
    whose [voltage_depend_loads] option is [False] when the algorithm is
    neither nr nor bfsw; for nr and bfsw the option, and all of
    [net["_options"]], reach the builder as they were at entry. *)
Theorem voltage_depend_loads_forced_before_build
    (kwargs : gmap string Z) (w : World) :
  preparation_keeps_options X ->
  exists nb rest,
    w_log (snd (_powerflow X kwargs w))
    = (w_log w ++ [C_add_auxiliary_elements; results_call (w_net w);
                   C_pd2ppc nb] ++ rest)%list
    /\ voltage_depend_loads (_options nb)
       = (if str_in (algorithm (_options (w_net w))) ["nr"; "bfsw"]
          then voltage_depend_loads (_options (w_net w))
          else false)
    /\ (In (algorithm (_options (w_net w))) ["nr"; "bfsw"] ->
        _options nb = _options (w_net w))
    /\ (~ In (algorithm (_options (w_net w))) ["nr"; "bfsw"] ->
        voltage_depend_loads (_options nb) = false).
Proof.
  intros Hframe. destruct (powerflow_log kwargs w) as (rest & Hlog).
  exists (handed_to_builder X (w_net w)), rest. split.
  - rewrite Hlog. unfold built_world. cbn [w_log].
    rewrite <- app_assoc. reflexivity.
  - rewrite (handed_to_builder_options (w_net w) Hframe).
    split; [|split].
    + destruct (str_in _ _); reflexivity.
    + intros Hin. apply str_in_In in Hin. rewrite Hin. reflexivity.
    + intros Hnot. apply str_in_false in Hnot. rewrite Hnot. reflexivity.
Qed.

Lemma built_world_converged (w : World) :
  collaborators_keep_converged X ->
  converged (w_net (built_world X w)) = false.
Proof.
  intros (Haux & Hver & Hres & Hbuild & _ & _).
  unfold built_world. cbn [w_net set__ppc converged]. rewrite Hbuild.
  assert (converged (cleared X (w_net w)) = false) as Hc.
  { unfold cleared.
    destruct (negb (ac (_options (w_net w)))
              || init_results (_options (w_net w)));
      [rewrite Hver | rewrite Hres]; rewrite Haux; reflexivity. }
  unfold handed_to_builder.
  destruct (negb (str_in (algorithm (_options (w_net w))) ["nr"; "bfsw"]));
    exact Hc.
Qed.

(** The full solve recomputes [net["converged"]]: it is [True] after a call
    that returns and [False] after a call that raises, provided no
    collaborator writes the flag. *)
Lemma powerflow_recomputes_converged (kwargs : gmap string Z) (w : World) :
  collaborators_keep_converged X ->
  converged (w_net (snd (_powerflow X kwargs w)))
  = match fst (_powerflow X kwargs w) with
    | Ok _ => true
    | Raise _ => false
    end.
Proof.
  intros Hframe. pose proof (built_world_converged w Hframe) as Hb.
  destruct Hframe as (_ & _ & _ & _ & Hext & Hclean).
  rewrite powerflow_unfold. unfold bind.
  destruct (run_pf_algorithm_cases X
              (snd (fst (_pd2ppc X (handed_to_builder X (w_net w)))))
              (_options (w_net (built_world X w))) (with_verbose kwargs)
              (built_world X w)) as [(r & new & ->) | [-> _]].
  - destruct (fst (_ppci_to_net X r _)) as [[]|e] eqn:Hout.
    + apply ppci_to_net_ok_converged; assumption.
    + rewrite (ppci_to_net_raise_converged X _ _ e Hclean Hout). exact Hb.
  - exact Hb.
Qed.

End FullSolve.

Section RecycledSolve.

Context {ndarray float tables : Type}.
Variable X : Collaborators ndarray float tables.

Abbreviation Case := (Case ndarray float).
Abbreviation World := (World ndarray float tables).

Lemma has_prior_build_recycled_ppci (n : Net ndarray float tables) :
  has_prior_build n = true -> exists ppci, recycled_ppci n = Some ppci.
Proof.
  unfold has_prior_build, recycled_ppci.
  destruct (_ppc n) as [p|]; [|discriminate].
  destruct (i_bus (internal p)), (i_gen (internal p)),
    (i_branch (internal p)), (i_baseMVA (internal p));
    try discriminate.
  eauto.
Qed.

(** The start of [_recycled_powerflow] (lines 76-95) on a network with a
    prior build: the rest of the function runs on the assembled case. *)
Lemma recycled_powerflow_dc (kwargs : gmap string Z) (w : World) ppci :
  recycled_ppci (w_net w) = Some ppci ->
  ac (_options (w_net w)) = false ->
  _recycled_powerflow X kwargs w
  = _ppci_to_net X (_run_dc_pf X ppci)
      (mkWorld (w_net w) (w_log w ++ [C_run_dc_pf ppci])).
Proof.
  unfold recycled_ppci, _recycled_powerflow. intros Hp Hac. run.
  destruct (_ppc (w_net w)) as [p|]; [|discriminate].
  destruct (i_bus (internal p)), (i_gen (internal p)),
    (i_branch (internal p)), (i_baseMVA (internal p));
    try discriminate.
  injection Hp as <-. rewrite Hac. reflexivity.
Qed.

Lemma recycled_powerflow_not_newton (kwargs : gmap string Z) (w : World) :
  has_prior_build (w_net w) = true ->
  ac (_options (w_net w)) = true ->
  str_in (algorithm (_options (w_net w))) ["nr"; "iwamoto_nr"] = false ->
  _recycled_powerflow X kwargs w
  = (Raise (ValueError
              "recycle is only available with Newton-Raphson power flow. Choose algorithm='nr'"),
     w).
Proof.
  unfold has_prior_build, _recycled_powerflow. intros Hp Hac Hname. run.
  destruct (_ppc (w_net w)) as [p|]; [|discriminate].
  destruct (i_bus (internal p)), (i_gen (internal p)),
    (i_branch (internal p)), (i_baseMVA (internal p));
    try discriminate.
  rewrite Hac, Hname. reflexivity.
Qed.

(** A recycled Newton solve on a network with a prior build: the flagged
    updates run, the reduced case is re-derived, the Newton-Raphson backend
    is called and its result is committed.  Options and [converged] reach
    the commit as they were at entry. *)
Lemma recycled_powerflow_newton
    (kwargs : gmap string Z) (w : World) (rc : gmap string bool)
    (lk : gmap string (Z * Z)) :
  has_prior_build (w_net w) = true ->
  ac (_options (w_net w)) = true ->
  str_in (algorithm (_options (w_net w))) ["nr"; "iwamoto_nr"] = true ->
  recycle (_options (w_net w)) = Some rc ->
  (flag "trafo" rc = true -> _pd2ppc_lookups (w_net w) !! "branch" = Some lk) ->
  exists ppci w1,
    _recycled_powerflow X kwargs w
    = _ppci_to_net X (_run_newton_raphson_pf X ppci (_options (w_net w))) w1
    /\ w_log w1
       = (w_log w ++ recycle_updates rc lk
            ++ [C_ppc2ppci; C_run_newton_raphson_pf ppci])%list
    /\ _options (w_net w1) = _options (w_net w)
    /\ converged (w_net w1) = converged (w_net w).
Proof.
  unfold has_prior_build, _recycled_powerflow, recycle_updates.
  intros Hp Hac Hname Hrc Hlk. run.
  destruct (_ppc (w_net w)) as [p|] eqn:Hstored; [|discriminate].
  destruct (i_bus (internal p)), (i_gen (internal p)),
    (i_branch (internal p)), (i_baseMVA (internal p));
    try discriminate.
  rewrite Hac, Hname, Hrc. cbn [negb andb].
  destruct (flag "bus_pq" rc); run.
  all: destruct (flag "trafo" rc); run.
  all: cbn [_pd2ppc_lookups set__ppc].
  all: try (rewrite (Hlk eq_refl)).
  all: try (destruct (has_key "trafo" lk); run).
  all: try (destruct (has_key "trafo3w" lk); run).
  all: destruct (flag "gen" rc); run.
  all: cbn [_ppc set__ppc]; rewrite ?Hstored.
  all: do 2 eexists; split; [reflexivity|].
  all: cbn [w_log w_net _options converged set__ppc app].
  all: rewrite <- ?app_assoc; cbn [app]; auto.
Qed.

(** C5 (amended): on a network with a prior build and an algorithm outside
    nr and iwamoto_nr, whatever the recycle flags: with [ac] true the
    recycled solve raises [ValueError] and the world is the one it was
    given, so no backend has been called; with [ac] false it does not raise
    [ValueError]: the DC backend runs on the case assembled from the stored
    [internal] and its result is committed. *)
Theorem recycle_rejects_other_ac_algorithms
    (kwargs : gmap string Z) (w : World) :
  has_prior_build (w_net w) = true ->
  ~ In (algorithm (_options (w_net w))) ["nr"; "iwamoto_nr"] ->
  (ac (_options (w_net w)) = true ->
   _recycled_powerflow X kwargs w
   = (Raise (ValueError
               "recycle is only available with Newton-Raphson power flow. Choose algorithm='nr'"),
      w))
  /\ (ac (_options (w_net w)) = false ->
      (forall msg,
          fst (_recycled_powerflow X kwargs w) <> Raise (ValueError msg))
      /\ exists ppci,
          recycled_ppci (w_net w) = Some ppci
          /\ _recycled_powerflow X kwargs w
             = _ppci_to_net X (_run_dc_pf X ppci)
                 (mkWorld (w_net w) (w_log w ++ [C_run_dc_pf ppci]))).
Proof.
  intros Hp Hname. split; intros Hac.
  - apply recycled_powerflow_not_newton; [exact Hp | exact Hac |].
    apply str_in_false, Hname.
  - destruct (has_prior_build_recycled_ppci _ Hp) as (ppci & Hppci).
    rewrite (recycled_powerflow_dc kwargs w ppci Hppci Hac).
    split.
    + intros msg. apply ppci_to_net_not_value_error.
    + exists ppci. split; [exact Hppci | reflexivity].
Qed.

Lemma recycle_updates_no_trafo (rc : gmap string bool)
    (lk : gmap string (Z * Z)) :
  lk !! "trafo" = None ->
  ~ In (C_calc_trafo_parameter : call ndarray float tables)
       (recycle_updates rc lk).
Proof.
  intros Hk. unfold recycle_updates, has_key. rewrite Hk.
  destruct (flag "bus_pq" rc), (flag "trafo" rc), (lk !! "trafo3w"),
    (flag "gen" rc); cbn; intuition discriminate.
Qed.

Lemma recycle_updates_no_trafo3w (rc : gmap string bool)
    (lk : gmap string (Z * Z)) :
  lk !! "trafo3w" = None ->
  ~ In (C_calc_trafo3w_parameter : call ndarray float tables)
       (recycle_updates rc lk).
Proof.
  intros Hk. unfold recycle_updates, has_key. rewrite Hk.
  destruct (flag "bus_pq" rc), (flag "trafo" rc), (lk !! "trafo"),
    (flag "gen" rc); cbn; intuition discriminate.
Qed.

(** C8: in a recycled Newton solve with the [trafo] flag set, the solve goes
    on to the Newton-Raphson backend and the commit of its result whatever
    the branch lookup holds; when the lookup has no ["trafo"] entry
    [_calc_trafo_parameter] is not called, and when it has no ["trafo3w"]
    entry [_calc_trafo3w_parameter] is not called. *)
Theorem absent_transformer_category_is_skipped
    (kwargs : gmap string Z) (w : World) (rc : gmap string bool)
    (lk : gmap string (Z * Z)) :
  has_prior_build (w_net w) = true ->
  ac (_options (w_net w)) = true ->
  In (algorithm (_options (w_net w))) ["nr"; "iwamoto_nr"] ->
  recycle (_options (w_net w)) = Some rc ->
  rc !! "trafo" = Some true ->
  _pd2ppc_lookups (w_net w) !! "branch" = Some lk ->
  exists updates ppci w1,
    _recycled_powerflow X kwargs w
    = _ppci_to_net X (_run_newton_raphson_pf X ppci (_options (w_net w))) w1
    /\ w_log w1
       = (w_log w ++ updates
            ++ [C_ppc2ppci; C_run_newton_raphson_pf ppci])%list
    /\ (lk !! "trafo" = None -> ~ In C_calc_trafo_parameter updates)
    /\ (lk !! "trafo3w" = None -> ~ In C_calc_trafo3w_parameter updates).
Proof.
  intros Hp Hac Hname Hrc Hflag Hlk.
  destruct (recycled_powerflow_newton kwargs w rc lk Hp Hac)
    as (ppci & w1 & Hrun & Hlog & _).
  - apply str_in_In, Hname.
  - exact Hrc.
  - intros _. exact Hlk.
  - exists (recycle_updates rc lk), ppci, w1.
    split; [exact Hrun|]. split; [exact Hlog|].
    split; [apply recycle_updates_no_trafo | apply recycle_updates_no_trafo3w].
Qed.

(** A recycled Newton solve that ends in [LoadflowNotConverged] leaves
    [net["converged"]] at its value from before the call: unlike
    [_powerflow], the recycled entry point does not clear the flag. *)
Lemma recycled_failure_keeps_converged
    (kwargs : gmap string Z) (w : World) (rc : gmap string bool)
    (lk : gmap string (Z * Z)) (msg : string) :
  (forall n res, converged (_clean_up X n res) = converged n) ->
  has_prior_build (w_net w) = true ->
  ac (_options (w_net w)) = true ->
  In (algorithm (_options (w_net w))) ["nr"; "iwamoto_nr"] ->
  recycle (_options (w_net w)) = Some rc ->
  (flag "trafo" rc = true -> _pd2ppc_lookups (w_net w) !! "branch" = Some lk) ->
  fst (_recycled_powerflow X kwargs w) = Raise (LoadflowNotConverged msg) ->
  converged (w_net (snd (_recycled_powerflow X kwargs w)))
  = converged (w_net w).
Proof.
  intros Hclean Hp Hac Hname Hrc Hlk.
  destruct (recycled_powerflow_newton kwargs w rc lk Hp Hac)
    as (ppci & w1 & -> & _ & _ & Hconv); auto.
  - apply str_in_In, Hname.
  - intros Hout. rewrite <- Hconv.
    apply (ppci_to_net_failure_converged X _ _ msg Hclean Hout).
Qed.

End RecycledSolve.

(** ** Which calls a computation can make *)

Section CallRules.

Context {ndarray float tables : Type}.

Abbreviation M := (M ndarray float tables).
Abbreviation call := (call ndarray float tables).

Variable P : call -> bool.

Lemma calls_only_ret {A} (a : A) : calls_only P (ret a : M A).
Proof. intros w. exists []. split; [apply eq_sym, app_nil_r | reflexivity]. Qed.

Lemma calls_only_raise {A} (e : exn) : calls_only P (raise e : M A).
Proof. intros w. exists []. split; [apply eq_sym, app_nil_r | reflexivity]. Qed.

Lemma calls_only_get_net : calls_only P (get_net : M _).
Proof. intros w. exists []. split; [apply eq_sym, app_nil_r | reflexivity]. Qed.

Lemma calls_only_modify_net f : calls_only P (modify_net f : M _).
Proof. intros w. exists []. split; [apply eq_sym, app_nil_r | reflexivity]. Qed.

Lemma calls_only_log_call (c : call) :
  P c = true -> calls_only P (log_call c).
Proof.
  intros Hc w. exists [c]. split; [reflexivity|]. cbn. rewrite Hc. reflexivity.
Qed.

Lemma calls_only_bind {A B} (m : M A) (k : A -> M B) :
  calls_only P m -> (forall a, calls_only P (k a)) -> calls_only P (bind m k).
Proof.
  intros Hm Hk w. unfold bind. destruct (Hm w) as (new & Hlog & Hnew).
  destruct (m w) as [[a|e] w1]; cbn [snd] in *.
  - destruct (Hk a w1) as (new' & Hlog' & Hnew').
    exists (new ++ new')%list. split.
    + rewrite Hlog', Hlog. apply eq_sym, app_assoc.
    + rewrite forallb_app, Hnew, Hnew'. reflexivity.
  - exists new. auto.
Qed.

Lemma calls_only_item {A} (key : string) (o : option A) :
  calls_only P (item key o : M A).
Proof. destruct o; [apply calls_only_ret | apply calls_only_raise]. Qed.

Lemma calls_only_call_pure {A} (c : call) (a : A) :
  P c = true -> calls_only P (call_pure c a).
Proof.
  intros Hc. apply calls_only_bind; [apply calls_only_log_call, Hc|].
  intros _. apply calls_only_ret.
Qed.

Lemma calls_only_call_net (c : call) f :
  P c = true -> calls_only P (call_net c f).
Proof.
  intros Hc. apply calls_only_bind; [apply calls_only_log_call, Hc|].
  intros _. apply calls_only_modify_net.
Qed.

Lemma calls_only_call_net_ppc (c : call) f ppc :
  P c = true -> calls_only P (call_net_ppc c f ppc).
Proof.
  intros Hc. apply calls_only_bind; [apply calls_only_log_call, Hc|].
  intros _. apply calls_only_bind; [apply calls_only_get_net|].
  intros n. apply calls_only_bind; [apply calls_only_modify_net|].
  intros _. apply calls_only_ret.
Qed.

End CallRules.

(** Closes a [calls_only] goal by following the structure of the
    computation; [P c = true] side goals are computed. *)
Ltac calls_only_step :=
  match goal with
  | |- calls_only _ (bind _ _) => apply calls_only_bind; [|intro]
  | |- calls_only _ (ret _) => apply calls_only_ret
  | |- calls_only _ (raise _) => apply calls_only_raise
  | |- calls_only _ get_net => apply calls_only_get_net
  | |- calls_only _ (modify_net _) => apply calls_only_modify_net
  | |- calls_only _ (item _ _) => apply calls_only_item
  | |- calls_only _ (call_pure _ _) => apply calls_only_call_pure; reflexivity
  | |- calls_only _ (call_net _ _) => apply calls_only_call_net; reflexivity
  | |- calls_only _ (call_net_ppc _ _ _) =>
      apply calls_only_call_net_ppc; reflexivity
  | |- calls_only _ (if ?b then _ else _) => destruct b
  | |- calls_only _ (match ?o with Some _ => _ | None => _ end) => destruct o
  | |- calls_only _ (let '(_, _) := ?p in _) => destruct p
  end.

(** ** More on the dispatcher *)

Section DispatcherRouting.

Context {ndarray float tables : Type}.
Variable X : Collaborators ndarray float tables.

Abbreviation Case := (Case ndarray float).
Abbreviation World := (World ndarray float tables).

(** Every call of the dispatcher is a backend or a numeric helper of the
    branch-less path. *)
Lemma run_pf_algorithm_solver_calls
    (ppci : Case) (options : Options) (kwargs : gmap string Z) (w : World) :
  exists new,
    w_log (snd (_run_pf_algorithm X ppci options kwargs w))
    = (w_log w ++ new)%list
    /\ forallb is_solver_call new = true.
Proof.
  unfold _run_pf_algorithm.
  destruct (ac options).
  - destruct (Nat.eqb _ _).
    + destruct (pf_without_branches_run X ppci options w) as (r & -> & _).
      eexists. split; reflexivity.
    + destruct (String.eqb (algorithm options) "bfsw");
        [|destruct (str_in (algorithm options) ["nr"; "iwamoto_nr"]);
          [|destruct (str_in (algorithm options) ["fdbx"; "fdxb"; "gs"])]];
        run; try (eexists; split; reflexivity).
      exists []. split; [apply eq_sym, app_nil_r | reflexivity].
  - run. eexists. split; reflexivity.
Qed.

(** The dispatcher is a router: every call it makes is a backend or a
    numeric helper of the branch-less path, it calls at most one backend,
    and when it raises it has called nothing and the exception is
    [AlgorithmUnknown] carrying the algorithm name. *)
Theorem dispatcher_is_a_router
    (ppci : Case) (options : Options) (kwargs : gmap string Z) (w : World) :
  let r := _run_pf_algorithm X ppci options kwargs w in
  exists new,
    w_log (snd r) = (w_log w ++ new)%list
    /\ forallb is_solver_call new = true
    /\ (length (List.filter is_backend new) <= 1)%nat
    /\ (forall e, fst r = Raise e ->
        new = []
        /\ e = AlgorithmUnknown
                 ("Algorithm " ++ algorithm options ++ " is unknown!")).
Proof.
  cbv zeta. unfold _run_pf_algorithm.
  destruct (ac options).
  - destruct (Nat.eqb _ _).
    + destruct (pf_without_branches_run X ppci options w) as (r & -> & _).
      eexists. split; [reflexivity|].
      repeat split; cbn; try lia; discriminate.
    + destruct (String.eqb (algorithm options) "bfsw").
      { run. eexists. split; [reflexivity|].
        repeat split; cbn; try lia; discriminate. }
      destruct (str_in (algorithm options) ["nr"; "iwamoto_nr"]).
      { run. eexists. split; [reflexivity|].
        repeat split; cbn; try lia; discriminate. }
      destruct (str_in (algorithm options) ["fdbx"; "fdxb"; "gs"]).
      { run. eexists. split; [reflexivity|].
        repeat split; cbn; try lia; discriminate. }
      run. exists [].
      split; [apply eq_sym, app_nil_r|].
      repeat split; cbn; try lia. congruence.
  - run. eexists. split; [reflexivity|].
    repeat split; cbn; try lia; discriminate.
Qed.

(** The dispatcher raises exactly when [ac] is true, the case has at least
    one branch row and the algorithm is none of the six known names; in
    every other configuration it returns a result. *)
Theorem dispatcher_raises_iff
    (ppci : Case) (options : Options) (kwargs : gmap string Z) (w : World) :
  (exists e, fst (_run_pf_algorithm X ppci options kwargs w) = Raise e)
  <-> (ac options = true
       /\ shape0 X (branch ppci) <> 0%nat
       /\ ~ In (algorithm options)
             ["nr"; "iwamoto_nr"; "bfsw"; "fdbx"; "fdxb"; "gs"]).
Proof.
  assert (str_in (algorithm options)
            ["nr"; "iwamoto_nr"; "bfsw"; "fdbx"; "fdxb"; "gs"]
          = (String.eqb (algorithm options) "bfsw"
             || str_in (algorithm options) ["nr"; "iwamoto_nr"]
             || str_in (algorithm options) ["fdbx"; "fdxb"; "gs"])%bool)
    as Hsix.
  { cbn. destruct (String.eqb (algorithm options) "nr"),
      (String.eqb (algorithm options) "iwamoto_nr"),
      (String.eqb (algorithm options) "bfsw"); reflexivity. }
  rewrite <- (str_in_In (algorithm options)
                ["nr"; "iwamoto_nr"; "bfsw"; "fdbx"; "fdxb"; "gs"]), Hsix.
  rewrite <- Nat.eqb_neq.
  unfold _run_pf_algorithm.
  destruct (ac options).
  - destruct (Nat.eqb _ _).
    + destruct (pf_without_branches_run X ppci options w) as (r & -> & _).
      split; [intros (e & He); discriminate He | intros (_ & H & _)].
      congruence.
    + destruct (String.eqb (algorithm options) "bfsw");
        [|destruct (str_in (algorithm options) ["nr"; "iwamoto_nr"]);
          [|destruct (str_in (algorithm options) ["fdbx"; "fdxb"; "gs"])]];
        run; cbn [orb].
      1-3: split; [intros (e & He); discriminate He | intros (_ & _ & H)];
        exfalso; apply H; reflexivity.
      split; [intros _ | intros _; eexists; reflexivity].
      repeat split; discriminate.
  - run. split; [intros (e & He); discriminate He | intros (H & _)].
    discriminate H.
Qed.

End DispatcherRouting.

(** ** More on the commit *)

Section CommitOutcomes.

Context {ndarray float tables : Type}.
Variable X : Collaborators ndarray float tables.

Abbreviation Case := (Case ndarray float).
Abbreviation World := (World ndarray float tables).

(** The commit of a successful result returns; it calls the merge, then
    result extraction, then [_clean_up] with its default [res=True], in
    that order and nothing else; afterwards [net["converged"]] is [True]
    and [net["_ppc"]] is the merged case. *)
Theorem successful_commit_stores_and_extracts (result : Case) (w : World) :
  merge_keeps_success X ->
  results_keep_ppc X ->
  collaborators_keep_converged X ->
  success result = Some 1%Z ->
  let r := _ppci_to_net X result w in
  fst r = Ok tt
  /\ w_log (snd r)
     = (w_log w ++ [C_copy_results_ppci_to_ppc result; C_extract_results;
                    C_clean_up true])%list
  /\ converged (w_net (snd r)) = true
  /\ _ppc (w_net (snd r)) = Some (fst (merged X result w)).
Proof.
  intros Hmerge (Hext_ppc & Hclean_ppc) (_ & _ & _ & _ & Hext & Hclean) Hs.
  cbv zeta. rewrite ppci_to_net_success.
  - cbn [fst snd w_net w_log].
    rewrite Hclean, Hext, Hclean_ppc, Hext_ppc. auto.
  - unfold merged. cbn [fst]. rewrite Hmerge. exact Hs.
Qed.

(** With a case stored under [net["_ppc"]], a result without a [success]
    key makes the commit fail with [KeyError] right after the merge:
    [_clean_up] and [_extract_results] are not called, and nothing of the
    network is written but what the merge wrote into the stored case, so
    [net["converged"]] keeps its value. *)
Theorem commit_without_success_key (result ppc : Case) (w : World) :
  merge_keeps_success X ->
  _ppc (w_net w) = Some ppc ->
  success result = None ->
  _ppci_to_net X result w
  = (Raise (KeyError "success"),
     mkWorld (set__ppc (snd (merged X result w)) (w_net w))
       (w_log w ++ [C_copy_results_ppci_to_ppc result]))
  /\ converged (set__ppc (snd (merged X result w)) (w_net w))
     = converged (w_net w)
  /\ exists ppc', snd (merged X result w) = Some ppc'.
Proof.
  intros Hmerge Hstored Hs. split; [|split].
  - apply ppci_to_net_no_success.
    unfold merged. cbn [fst]. rewrite Hmerge. exact Hs.
  - reflexivity.
  - unfold merged, written_through. cbn [snd]. rewrite Hstored.
    destruct (snd (_copy_results_ppci_to_ppc X result (Some ppc) _));
      eauto.
Qed.

End CommitOutcomes.

(** ** More on the full solve *)

Section FullSolveOutcomes.

Context {ndarray float tables : Type}.
Variable X : Collaborators ndarray float tables.

Abbreviation Case := (Case ndarray float).
Abbreviation Net := (Net ndarray float tables).
Abbreviation World := (World ndarray float tables).










(** Leaving [VERBOSE] out of the keyword arguments is the same as passing
    [VERBOSE=0]. *)
Theorem verbose_defaults_to_zero (kwargs : gmap string Z) (w : World) :
  kwargs !! "VERBOSE" = None ->
  _powerflow X kwargs w = _powerflow X (<["VERBOSE" := 0%Z]> kwargs) w.
Proof.
  intros Hk. rewrite !powerflow_unfold. unfold with_verbose, has_key.
  rewrite Hk, lookup_insert_eq. reflexivity.
Qed.

(** Cleanup is the last call of every full solve that returns or ends in
    [LoadflowNotConverged]: after extraction with [res=True] when it
    returns, and with [res=False] and no extraction at all when the solve
    did not converge. *)
Theorem full_solve_ends_with_cleanup (kwargs : gmap string Z) (w : World) :
  let r := _powerflow X kwargs w in
  (fst r = Ok tt ->
   exists new,
     w_log (snd r)
     = (w_log w ++ new ++ [C_extract_results; C_clean_up true])%list)
  /\ (forall msg, fst r = Raise (LoadflowNotConverged msg) ->
      exists new,
        w_log (snd r) = (w_log w ++ new ++ [C_clean_up false])%list
        /\ ~ In C_extract_results new).
Proof.
  cbv zeta. rewrite powerflow_unfold. unfold bind.
  destruct (run_pf_algorithm_cases X
              (snd (fst (_pd2ppc X (handed_to_builder X (w_net w)))))
              (_options (w_net (built_world X w))) (with_verbose kwargs)
              (built_world X w)) as [(r & new & Hrun) | [-> _]].
  - destruct (run_pf_algorithm_solver_calls X
                (snd (fst (_pd2ppc X (handed_to_builder X (w_net w)))))
                (_options (w_net (built_world X w))) (with_verbose kwargs)
                (built_world X w)) as (new' & Hlog & Hsolver).
    rewrite Hrun in Hlog |- *. cbn [snd w_log] in Hlog.
    apply app_inv_head in Hlog. subst new'.
    set (w1 := mkWorld (w_net (built_world X w))
                 (w_log (built_world X w) ++ new)).
    destruct (success (fst (merged X r w1))) as [s|] eqn:Hs.
    + destruct (Z.eq_dec s 1) as [->|Hne].
      * rewrite ppci_to_net_success by exact Hs. split; [|discriminate].
        intros _. subst w1. cbn [snd w_log]. unfold built_world.
        cbn [w_log].
        exists ([C_add_auxiliary_elements; results_call (w_net w);
                 C_pd2ppc (handed_to_builder X (w_net w))]
                ++ new ++ [C_copy_results_ppci_to_ppc r])%list.
        rewrite <- !app_assoc. reflexivity.
      * rewrite (ppci_to_net_failure X r w1 s Hs Hne).
        split; [discriminate|]. intros msg _. subst w1. cbn [snd w_log].
        unfold built_world. cbn [w_log].
        exists ([C_add_auxiliary_elements; results_call (w_net w);
                 C_pd2ppc (handed_to_builder X (w_net w))]
                ++ new ++ [C_copy_results_ppci_to_ppc r])%list.
        split; [rewrite <- !app_assoc; reflexivity|].
        rewrite !in_app_iff. intros [Hin | [Hin | Hin]].
        -- cbn in Hin. unfold results_call in Hin.
           destruct (negb _ || _); intuition discriminate.
        -- rewrite forallb_forall in Hsolver.
           specialize (Hsolver _ Hin). discriminate Hsolver.
        -- cbn in Hin. intuition discriminate.
    + rewrite ppci_to_net_no_success by exact Hs.
      split; [discriminate | intros msg H; discriminate H].
  - split; [discriminate | intros msg H; discriminate H].
Qed.

(** A power-flow solve always clears the optimal-power-flow flag: after
    [_powerflow], whether it returned or raised, [net["OPF_converged"]] is
    [False], provided no collaborator writes the flag. *)
Theorem full_solve_clears_OPF_converged (kwargs : gmap string Z) (w : World) :
  collaborators_keep_OPF_converged X ->
  OPF_converged (w_net (snd (_powerflow X kwargs w))) = false.
Proof.
  intros (Haux & Hver & Hres & Hbuild & Hext & Hclean).
  assert (OPF_converged (w_net (built_world X w)) = false) as Hb.
  { unfold built_world. cbn [w_net set__ppc OPF_converged]. rewrite Hbuild.
    assert (OPF_converged (cleared X (w_net w)) = false) as Hc.
    { unfold cleared.
      destruct (negb (ac (_options (w_net w)))
                || init_results (_options (w_net w)));
        [rewrite Hver | rewrite Hres]; rewrite Haux; reflexivity. }
    unfold handed_to_builder.
    destruct (negb (str_in (algorithm (_options (w_net w))) ["nr"; "bfsw"]));
      exact Hc. }
  rewrite powerflow_unfold. unfold bind.
  destruct (run_pf_algorithm_cases X
              (snd (fst (_pd2ppc X (handed_to_builder X (w_net w)))))
              (_options (w_net (built_world X w))) (with_verbose kwargs)
              (built_world X w)) as [(r & new & ->) | [-> _]];
    [|exact Hb].
  set (w1 := mkWorld (w_net (built_world X w))
               (w_log (built_world X w) ++ new)).
  destruct (success (fst (merged X r w1))) as [s|] eqn:Hs.
  - destruct (Z.eq_dec s 1) as [->|Hne].
    + rewrite ppci_to_net_success by exact Hs. cbn [snd w_net].
      rewrite Hclean, Hext. exact Hb.
    + rewrite (ppci_to_net_failure X r w1 s Hs Hne). cbn [snd w_net].
      rewrite Hclean. exact Hb.
  - rewrite ppci_to_net_no_success by exact Hs. exact Hb.
Qed.

End FullSolveOutcomes.


(** ** More on the recycled solve *)

Section RecycledOutcomes.

Context {ndarray float tables : Type}.
Variable X : Collaborators ndarray float tables.

Abbreviation Case := (Case ndarray float).
Abbreviation World := (World ndarray float tables).
Abbreviation call := (call ndarray float tables).

(** Without a prior build the recycled solve raises while it assembles the
    reduced case, before anything is called or written: [TypeError] when
    [net["_ppc"]] is [None]; otherwise [KeyError] for the first missing
    entry of the stored [internal], looked up in the order [bus], [gen],
    [branch], [baseMVA]. *)
Theorem recycled_solve_needs_prior_build
    (kwargs : gmap string Z) (w : World) :
  has_prior_build (w_net w) = false ->
  exists e,
    _recycled_powerflow X kwargs w = (Raise e, w)
    /\ match _ppc (w_net w) with
       | None => e = TypeError "'NoneType' object is not subscriptable"
       | Some p =>
           let i := internal p in
           (i_bus i = None /\ e = KeyError "bus")
           \/ (i_bus i <> None /\ i_gen i = None /\ e = KeyError "gen")
           \/ (i_bus i <> None /\ i_gen i <> None /\ i_branch i = None
               /\ e = KeyError "branch")
           \/ (i_bus i <> None /\ i_gen i <> None /\ i_branch i <> None
               /\ i_baseMVA i = None /\ e = KeyError "baseMVA")
       end.
Proof.
  unfold has_prior_build, _recycled_powerflow. intros Hp. run.
  destruct (_ppc (w_net w)) as [p|]; [|eexists; split; reflexivity].
  cbv zeta.
  destruct (i_bus (internal p));
    [|eexists; split; [reflexivity|]; left; auto].
  destruct (i_gen (internal p));
    [|eexists; split; [reflexivity|]; right; left;
      repeat split; try discriminate; try reflexivity].
  destruct (i_branch (internal p));
    [|eexists; split; [reflexivity|]; right; right; left;
      repeat split; try discriminate; try reflexivity].
  destruct (i_baseMVA (internal p)); [discriminate Hp|].
  eexists. split; [reflexivity|]. right. right. right.
  repeat split; try discriminate; try reflexivity.
Qed.

(** A recycled DC solve cannot fail and updates nothing: with [ac] false
    and a DC backend that reports success it returns for every algorithm
    name and every value of [recycle], and its calls are the DC backend on
    the case assembled from the stored [internal], the merge, extraction
    and cleanup. *)
Theorem recycled_dc_solve_succeeds
    (kwargs : gmap string Z) (w : World) (ppci : Case) :
  dc_reports_success X ->
  merge_keeps_success X ->
  recycled_ppci (w_net w) = Some ppci ->
  ac (_options (w_net w)) = false ->
  let r := _recycled_powerflow X kwargs w in
  fst r = Ok tt
  /\ w_log (snd r)
     = (w_log w ++ [C_run_dc_pf ppci;
                    C_copy_results_ppci_to_ppc (_run_dc_pf X ppci);
                    C_extract_results; C_clean_up true])%list.
Proof.
  intros Hdc Hmerge Hp Hac. cbv zeta.
  rewrite (recycled_powerflow_dc X kwargs w ppci Hp Hac).
  rewrite ppci_to_net_success.
  - split; [reflexivity|]. cbn [snd w_log]. rewrite <- !app_assoc.
    reflexivity.
  - unfold merged. cbn [fst]. rewrite Hmerge. apply Hdc.
Qed.

(** Which updates [recycle_updates] holds. *)
Lemma recycle_updates_members (rc : gmap string bool)
    (lk : gmap string (Z * Z)) :
  (In (C_calc_pq_elements_and_add_on_ppc : call) (recycle_updates rc lk)
   <-> flag "bus_pq" rc = true)
  /\ (In (C_calc_trafo_parameter : call) (recycle_updates rc lk)
      <-> flag "trafo" rc = true /\ has_key "trafo" lk = true)
  /\ (In (C_calc_trafo3w_parameter : call) (recycle_updates rc lk)
      <-> flag "trafo" rc = true /\ has_key "trafo3w" lk = true)
  /\ (In (C_build_gen_ppc : call) (recycle_updates rc lk)
      <-> flag "gen" rc = true)
  /\ (In (C_nan_to_num : call) (recycle_updates rc lk)
      <-> flag "gen" rc = true).
Proof.
  unfold recycle_updates.
  destruct (flag "bus_pq" rc), (flag "trafo" rc), (has_key "trafo" lk),
    (has_key "trafo3w" lk), (flag "gen" rc);
    cbn; repeat split; intros; intuition (try discriminate; auto).
Qed.

(** A recycled Newton solve updates exactly the flagged categories: the
    injections when [bus_pq] is set, each transformer kind when [trafo] is
    set and the kind is a key of the branch lookup, the generators,
    followed by [nan_to_num], when [gen] is set.  No backend is called
    among them, and with no flag set nothing is called before the reduced
    case is re-derived and handed to the Newton-Raphson backend. *)
Theorem recycled_updates_follow_flags
    (kwargs : gmap string Z) (w : World) (rc : gmap string bool)
    (lk : gmap string (Z * Z)) :
  has_prior_build (w_net w) = true ->
  ac (_options (w_net w)) = true ->
  In (algorithm (_options (w_net w))) ["nr"; "iwamoto_nr"] ->
  recycle (_options (w_net w)) = Some rc ->
  _pd2ppc_lookups (w_net w) !! "branch" = Some lk ->
  exists updates ppci w1,
    _recycled_powerflow X kwargs w
    = _ppci_to_net X (_run_newton_raphson_pf X ppci (_options (w_net w))) w1
    /\ w_log w1
       = (w_log w ++ updates
            ++ [C_ppc2ppci; C_run_newton_raphson_pf ppci])%list
    /\ (In C_calc_pq_elements_and_add_on_ppc updates
        <-> flag "bus_pq" rc = true)
    /\ (In C_calc_trafo_parameter updates
        <-> flag "trafo" rc = true /\ has_key "trafo" lk = true)
    /\ (In C_calc_trafo3w_parameter updates
        <-> flag "trafo" rc = true /\ has_key "trafo3w" lk = true)
    /\ (In C_build_gen_ppc updates <-> flag "gen" rc = true)
    /\ (In C_nan_to_num updates <-> flag "gen" rc = true)
    /\ forallb (fun c => negb (is_backend c)) updates = true
    /\ (flag "bus_pq" rc = false -> flag "trafo" rc = false ->
        flag "gen" rc = false -> updates = []).
Proof.
  intros Hp Hac Hname Hrc Hlk.
  destruct (recycled_powerflow_newton X kwargs w rc lk Hp Hac)
    as (ppci & w1 & Hrun & Hlog & _).
  - apply str_in_In, Hname.
  - exact Hrc.
  - intros _. exact Hlk.
  - exists (recycle_updates rc lk), ppci, w1.
    split; [exact Hrun|]. split; [exact Hlog|].
    destruct (recycle_updates_members rc lk) as (H1 & H2 & H3 & H4 & H5).
    repeat (split; [assumption|]).
    unfold recycle_updates.
    destruct (flag "bus_pq" rc), (flag "trafo" rc), (has_key "trafo" lk),
      (has_key "trafo3w" lk), (flag "gen" rc);
      (split; [reflexivity | intros; try discriminate; reflexivity]).
Qed.

(** The state in which a recycled Newton solve calls its backend: the
    reduced case shares the [internal] of the case stored under
    [net["_ppc"]]. *)
Lemma recycled_powerflow_newton_state
    (kwargs : gmap string Z) (w : World) (rc : gmap string bool)
    (lk : gmap string (Z * Z)) :
  has_prior_build (w_net w) = true ->
  ac (_options (w_net w)) = true ->
  str_in (algorithm (_options (w_net w))) ["nr"; "iwamoto_nr"] = true ->
  recycle (_options (w_net w)) = Some rc ->
  (flag "trafo" rc = true -> _pd2ppc_lookups (w_net w) !! "branch" = Some lk) ->
  exists ppc ppci w1,
    _recycled_powerflow X kwargs w
    = _ppci_to_net X (_run_newton_raphson_pf X ppci (_options (w_net w))) w1
    /\ _ppc (w_net w1) = Some ppc
    /\ internal ppci = internal ppc.
Proof.
  unfold has_prior_build, _recycled_powerflow.
  intros Hp Hac Hname Hrc Hlk. run.
  destruct (_ppc (w_net w)) as [p|] eqn:Hstored; [|discriminate].
  destruct (i_bus (internal p)), (i_gen (internal p)),
    (i_branch (internal p)), (i_baseMVA (internal p));
    try discriminate.
  rewrite Hac, Hname, Hrc. cbn [negb andb].
  destruct (flag "bus_pq" rc); run.
  all: destruct (flag "trafo" rc); run.
  all: cbn [_pd2ppc_lookups set__ppc].
  all: try (rewrite (Hlk eq_refl)).
  all: try (destruct (has_key "trafo" lk); run).
  all: try (destruct (has_key "trafo3w" lk); run).
  all: destruct (flag "gen" rc); run.
  all: cbn [_ppc set__ppc]; rewrite ?Hstored.
  all: do 3 eexists; split; [reflexivity|].
  all: cbn [w_net set__ppc _options converged OPF_converged _ppc
            _pd2ppc_lookups elements set_internal internal].
  all: split; reflexivity.
Qed.

(** The reduced case a recycled Newton solve hands to its backend carries
    the [internal] sub-structure of the full case that is stored under
    [net["_ppc"]] when the backend is called (lines 143-144). *)
Theorem recycled_case_shares_internal
    (kwargs : gmap string Z) (w : World) (rc : gmap string bool)
    (lk : gmap string (Z * Z)) :
  has_prior_build (w_net w) = true ->
  ac (_options (w_net w)) = true ->
  In (algorithm (_options (w_net w))) ["nr"; "iwamoto_nr"] ->
  recycle (_options (w_net w)) = Some rc ->
  _pd2ppc_lookups (w_net w) !! "branch" = Some lk ->
  exists ppc ppci w1,
    _recycled_powerflow X kwargs w
    = _ppci_to_net X (_run_newton_raphson_pf X ppci (_options (w_net w))) w1
    /\ _ppc (w_net w1) = Some ppc
    /\ internal ppci = internal ppc.
Proof.
  intros Hp Hac Hname Hrc Hlk.
  destruct (recycled_powerflow_newton_state kwargs w rc lk Hp Hac)
    as (ppc & ppci & w1 & Hrun & Hnet & Hint).
  - apply str_in_In, Hname.
  - exact Hrc.
  - intros _. exact Hlk.
  - exists ppc, ppci, w1. auto.
Qed.

(** With [trafo] flagged and no ["branch"] entry in the lookups, a recycled
    Newton solve raises [KeyError]; the injections update may already have
    run, and no backend is called. *)
Theorem recycled_trafo_needs_branch_lookup
    (kwargs : gmap string Z) (w : World) (rc : gmap string bool) :
  has_prior_build (w_net w) = true ->
  ac (_options (w_net w)) = true ->
  In (algorithm (_options (w_net w))) ["nr"; "iwamoto_nr"] ->
  recycle (_options (w_net w)) = Some rc ->
  flag "trafo" rc = true ->
  _pd2ppc_lookups (w_net w) !! "branch" = None ->
  let r := _recycled_powerflow X kwargs w in
  fst r = Raise (KeyError "branch")
  /\ w_log (snd r)
     = (w_log w ++ if flag "bus_pq" rc
                   then [C_calc_pq_elements_and_add_on_ppc] else [])%list.
Proof.
  intros Hp Hac Hname Hrc Htr Hlk. cbv zeta.
  unfold has_prior_build in Hp. unfold _recycled_powerflow. run.
  destruct (_ppc (w_net w)) as [p|] eqn:Hstored; [|discriminate].
  destruct (i_bus (internal p)), (i_gen (internal p)),
    (i_branch (internal p)), (i_baseMVA (internal p));
    try discriminate.
  apply str_in_In in Hname.
  rewrite Hac, Hname, Hrc, Htr. cbn [negb andb].
  destruct (flag "bus_pq" rc); run; cbn [_pd2ppc_lookups set__ppc];
    rewrite Hlk; cbn [fst snd w_log]; split; try reflexivity.
  apply eq_sym, app_nil_r.
Qed.

(** With [recycle] left at [None], a recycled Newton solve raises
    [TypeError] at the first flag test, before anything is called or
    written. *)
Theorem recycled_newton_needs_flags (kwargs : gmap string Z) (w : World) :
  has_prior_build (w_net w) = true ->
  ac (_options (w_net w)) = true ->
  In (algorithm (_options (w_net w))) ["nr"; "iwamoto_nr"] ->
  recycle (_options (w_net w)) = None ->
  _recycled_powerflow X kwargs w
  = (Raise (TypeError "argument of type 'NoneType' is not iterable"), w).
Proof.
  intros Hp Hac Hname Hrc.
  unfold has_prior_build in Hp. unfold _recycled_powerflow. run.
  destruct (_ppc (w_net w)) as [p|] eqn:Hstored; [|discriminate].
  destruct (i_bus (internal p)), (i_gen (internal p)),
    (i_branch (internal p)), (i_baseMVA (internal p));
    try discriminate.
  apply str_in_In in Hname.
  rewrite Hac, Hname, Hrc. reflexivity.
Qed.

(** A recycled solve never rebuilds: on every path, returning or raising,
    it calls neither the auxiliary-element step, nor the verification or
    reset of the result tables, nor the builder. *)
Theorem recycled_solve_never_rebuilds (kwargs : gmap string Z) (w : World) :
  exists new,
    w_log (snd (_recycled_powerflow X kwargs w)) = (w_log w ++ new)%list
    /\ forallb (fun c => negb (is_full_build_call c)) new = true.
Proof.
  revert w.
  change (calls_only (fun c : call => negb (is_full_build_call c))
            (_recycled_powerflow X kwargs)).
  unfold _recycled_powerflow, _ppci_to_net. repeat calls_only_step.
Qed.

End RecycledOutcomes.

(** ** The properties on the reference collaborators *)

Section Instances.

Import Sample.

Lemma sample_merge_keeps_success : merge_keeps_success X.
Proof. intros result ppc m. reflexivity. Defined.

Lemma sample_clean_up_keeps_options : clean_up_keeps_options X.
Proof. intros n res. reflexivity. Defined.

Lemma sample_preparation_keeps_options : preparation_keeps_options X.
Proof. repeat split. Defined.

Lemma sample_collaborators_keep_converged : collaborators_keep_converged X.
Proof. repeat split. Defined.

Lemma sample_dc_reports_success : dc_reports_success X.
Proof. intros ppci. reflexivity. Defined.


Lemma sample_collaborators_keep_OPF_converged :
  collaborators_keep_OPF_converged X.
Proof. repeat split. Defined.

Lemma sample_results_keep_ppc : results_keep_ppc X.
Proof. repeat split. Defined.

(** C1: a recycled Newton solve on a network whose earlier solve converged,
    with an iteration cap of 1.  The solve result has [success = False] and
    the call raises [LoadflowNotConverged], yet [net["converged"]] is still
    [True] afterwards. *)
Theorem recycled_failure_leaves_converged_true :
  let o := options "nr" true 1 (Some {[ "bus_pq" := true ]}) in
  let w := start (solved_before o) in
  let r := _recycled_powerflow X no_kwargs w in
  converged (w_net w) = true
  /\ fst r = Raise (LoadflowNotConverged
                      "Power Flow nr did not converge after 1 iterations!")
  /\ (exists result,
         In (C_copy_results_ppci_to_ppc result) (w_log (snd r))
         /\ success result = Some 0%Z)
  /\ converged (w_net (snd r)) = true.
Proof.
  cbv zeta. split; [reflexivity|]. split; [reflexivity|]. split.
  - eexists. split.
    + vm_compute. right. right. right. left. reflexivity.
    + reflexivity.
  - reflexivity.
Qed.

(** C2 on the one-branch network: a Newton-Raphson result that did not
    converge within one iteration. *)
Lemma failed_solve_cleans_up_then_raises_witness :
  let w := start (set__ppc (Some one_branch_case)
                    (fresh (options "nr" true 1 None))) in
  merge_keeps_success X /\ clean_up_keeps_options X
  /\ success failed_result = Some 0%Z /\ 0%Z <> 1%Z
  /\ _ppci_to_net X failed_result w
     = (Raise (LoadflowNotConverged
                 "Power Flow nr did not converge after 1 iterations!"),
        mkWorld (set__ppc (Some failed_result) (w_net w))
          [C_copy_results_ppci_to_ppc failed_result; C_clean_up false]).
Proof.
  cbv zeta.
  assert (0%Z <> 1%Z) as Hne by discriminate.
  split; [exact sample_merge_keeps_success|].
  split; [exact sample_clean_up_keeps_options|].
  split; [reflexivity|]. split; [exact Hne|].
  exact (failed_solve_cleans_up_then_raises X failed_result _ 0%Z
           sample_merge_keeps_success sample_clean_up_keeps_options
           eq_refl Hne).
Defined.

(** C3 on two isolated buses, with an algorithm name no backend has. *)
Lemma branchless_dispatch_succeeds_witness :
  let o := options "not-a-real-algorithm" true 10 None in
  let w := start (islands o) in
  ac o = true /\ shape0 X (branch no_branch_case) = 0%nat
  /\ exists r,
      _run_pf_algorithm X no_branch_case o no_kwargs w
      = (Ok r, mkWorld (w_net w)
                 (w_log w ++ [C_makeYbus; C_get_pf_variables_from_ppci;
                              C_pfsoln]))
      /\ success r = Some 1%Z /\ iterations r = Some 1%Z
      /\ et r = Some (PyInt 0).
Proof.
  cbv zeta. split; [reflexivity|]. split; [reflexivity|].
  exact (branchless_dispatch_succeeds X no_branch_case
           (options "not-a-real-algorithm" true 10 None) no_kwargs
           (start (islands (options "not-a-real-algorithm" true 10 None)))
           eq_refl eq_refl).
Defined.

(** C4 on the one-branch case. *)
Lemma unknown_algorithm_rejected_witness :
  let o := options "not-a-real-algorithm" true 10 None in
  let w := start (fresh o) in
  ac o = true /\ shape0 X (branch one_branch_case) <> 0%nat
  /\ ~ In (algorithm o) ["nr"; "iwamoto_nr"; "bfsw"; "fdbx"; "fdxb"; "gs"]
  /\ _run_pf_algorithm X one_branch_case o no_kwargs w
     = (Raise (AlgorithmUnknown "Algorithm not-a-real-algorithm is unknown!"),
        w).
Proof.
  cbv zeta.
  assert (shape0 X (branch one_branch_case) <> 0%nat) as Hrows
    by discriminate.
  assert (~ In "not-a-real-algorithm"
            ["nr"; "iwamoto_nr"; "bfsw"; "fdbx"; "fdxb"; "gs"]) as Hname
    by (cbn; intuition discriminate).
  split; [reflexivity|]. split; [exact Hrows|]. split; [exact Hname|].
  exact (unknown_algorithm_rejected X one_branch_case
           (options "not-a-real-algorithm" true 10 None) no_kwargs _
           eq_refl Hrows Hname).
Defined.

(** C5 (amended) on a solved network with the sweep algorithm and [gen]
    flagged, once with [ac] true and once with [ac] false. *)
Lemma recycle_rejects_other_ac_algorithms_witness :
  let rc : gmap string bool := {[ "gen" := true ]} in
  let w := start (solved_before (options "bfsw" true 10 (Some rc))) in
  let w' := start (solved_before (options "bfsw" false 10 (Some rc))) in
  has_prior_build (w_net w) = true
  /\ has_prior_build (w_net w') = true
  /\ ~ In "bfsw" ["nr"; "iwamoto_nr"]
  /\ _recycled_powerflow X no_kwargs w
     = (Raise (ValueError
                 "recycle is only available with Newton-Raphson power flow. Choose algorithm='nr'"),
        w)
  /\ (forall msg,
         fst (_recycled_powerflow X no_kwargs w') <> Raise (ValueError msg))
  /\ fst (_recycled_powerflow X no_kwargs w') = Ok tt.
Proof.
  cbv zeta.
  assert (~ In "bfsw" ["nr"; "iwamoto_nr"]) as Hname
    by (cbn; intuition discriminate).
  split; [reflexivity|]. split; [reflexivity|]. split; [exact Hname|].
  split.
  - exact (proj1 (recycle_rejects_other_ac_algorithms X no_kwargs
                    (start (solved_before
                              (options "bfsw" true 10
                                 (Some {[ "gen" := true ]}))))
                    eq_refl Hname) eq_refl).
  - split; [|reflexivity].
    exact (proj1 (proj2 (recycle_rejects_other_ac_algorithms X no_kwargs
                           (start (solved_before
                                     (options "bfsw" false 10
                                        (Some {[ "gen" := true ]}))))
                           eq_refl Hname) eq_refl)).
Defined.

(** C5 as stated fails for [ac] false: with algorithm bfsw and
    [recycle["gen"]] set, the recycled solve does not raise; it runs the DC
    backend and returns. *)
Lemma recycle_dc_runs_for_any_algorithm :
  let rc : gmap string bool := {[ "gen" := true ]} in
  let o := options "bfsw" false 10 (Some rc) in
  let r := _recycled_powerflow X no_kwargs (start (solved_before o)) in
  flag "gen" rc = true
  /\ ~ In (algorithm o) ["nr"; "iwamoto_nr"]
  /\ fst r = Ok tt
  /\ existsb is_backend (w_log (snd r)) = true.
Proof.
  cbv zeta. split; [reflexivity|].
  split; [cbn; intuition discriminate|].
  split; reflexivity.
Qed.



(** C7 (amended) on two isolated buses with [ac] true. *)
Lemma zero_branch_dispatch_tests_ac_first_witness :
  let o := options "nr" true 10 None in
  let r := _run_pf_algorithm X no_branch_case o no_kwargs (start (islands o)) in
  shape0 X (branch no_branch_case) = 0%nat
  /\ (w_log (snd r)
      = [C_makeYbus; C_get_pf_variables_from_ppci; C_pfsoln]
      /\ (ac o = false -> fst r = Ok (_run_dc_pf X no_branch_case))).
Proof.
  cbv zeta. split; [reflexivity|].
  exact (zero_branch_dispatch_tests_ac_first X no_branch_case
           (options "nr" true 10 None) no_kwargs
           (start (islands (options "nr" true 10 None))) eq_refl).
Defined.

(** C7 as stated fails: a case with zero branch rows and [ac] false is not
    sent down the branch-less path; the only call made is the DC backend. *)
Lemma zero_branch_dc_uses_dc_backend :
  let o := options "nr" false 10 None in
  let r := _run_pf_algorithm X no_branch_case o no_kwargs (start (islands o)) in
  shape0 X (branch no_branch_case) = 0%nat
  /\ fst r = Ok (_run_dc_pf X no_branch_case)
  /\ w_log (snd r) = [C_run_dc_pf no_branch_case].
Proof.
  cbv zeta. repeat split.
Qed.

(** C8 on a solved network whose branch lookup holds lines only. *)
Lemma absent_transformer_category_is_skipped_witness :
  let rc : gmap string bool := {[ "trafo" := true ]} in
  let lk : gmap string (Z * Z) := {[ "line" := (0%Z, 1%Z) ]} in
  let o := options "nr" true 10 (Some rc) in
  let w := start (solved_before o) in
  has_prior_build (w_net w) = true /\ ac (_options (w_net w)) = true
  /\ In (algorithm (_options (w_net w))) ["nr"; "iwamoto_nr"]
  /\ recycle (_options (w_net w)) = Some rc
  /\ rc !! "trafo" = Some true
  /\ _pd2ppc_lookups (w_net w) !! "branch" = Some lk
  /\ exists updates ppci w1,
      _recycled_powerflow X no_kwargs w
      = _ppci_to_net X
          (_run_newton_raphson_pf X ppci (_options (w_net w))) w1
      /\ w_log w1
         = (w_log w ++ updates
              ++ [C_ppc2ppci; C_run_newton_raphson_pf ppci])%list
      /\ (lk !! "trafo" = None -> ~ In C_calc_trafo_parameter updates)
      /\ (lk !! "trafo3w" = None -> ~ In C_calc_trafo3w_parameter updates).
Proof.
  cbv zeta.
  assert (In "nr" ["nr"; "iwamoto_nr"]) as Hname by (left; reflexivity).
  split; [reflexivity|]. split; [reflexivity|]. split; [exact Hname|].
  split; [reflexivity|]. split; [reflexivity|]. split; [reflexivity|].
  exact (absent_transformer_category_is_skipped X no_kwargs
           (start (solved_before
                     (options "nr" true 10 (Some {[ "trafo" := true ]}))))
           {[ "trafo" := true ]} {[ "line" := (0%Z, 1%Z) ]}
           eq_refl eq_refl Hname eq_refl eq_refl eq_refl).
Defined.

(** C9 with the Gauss-Seidel algorithm on a network whose option was set. *)
Lemma voltage_depend_loads_forced_before_build_witness :
  let o := options "gs" true 10 None in
  let w := start (fresh o) in
  preparation_keeps_options X
  /\ voltage_depend_loads (_options (w_net w)) = true
  /\ exists nb rest,
      w_log (snd (_powerflow X no_kwargs w))
      = (w_log w ++ [C_add_auxiliary_elements; results_call (w_net w);
                     C_pd2ppc nb] ++ rest)%list
      /\ voltage_depend_loads (_options nb) = false
      /\ (In (algorithm (_options (w_net w))) ["nr"; "bfsw"] ->
          _options nb = _options (w_net w))
      /\ (~ In (algorithm (_options (w_net w))) ["nr"; "bfsw"] ->
          voltage_depend_loads (_options nb) = false).
Proof.
  cbv zeta. split; [exact sample_preparation_keeps_options|].
  split; [reflexivity|].
  exact (voltage_depend_loads_forced_before_build X no_kwargs
           (start (fresh (options "gs" true 10 None)))
           sample_preparation_keeps_options).
Defined.

(** C10 with an algorithm name no backend has. *)
Lemma dc_dispatch_ignores_algorithm_witness :
  let o := options "not-a-real-algorithm" false 10 None in
  let w := start (fresh o) in
  ac o = false
  /\ _run_pf_algorithm X one_branch_case o no_kwargs w
     = (Ok (_run_dc_pf X one_branch_case),
        mkWorld (w_net w) [C_run_dc_pf one_branch_case]).
Proof.
  cbv zeta. split; [reflexivity|].
  exact (dc_dispatch_ignores_algorithm X one_branch_case
           (options "not-a-real-algorithm" false 10 None) no_kwargs
           (start (fresh (options "not-a-real-algorithm" false 10 None)))
           eq_refl).
Defined.

(** The full solve on the one-branch network with a cap of one iteration:
    it raises and [converged] is [False]. *)
Lemma powerflow_recomputes_converged_witness :
  let w := start (solved_before (options "nr" true 1 None)) in
  let r := _powerflow X no_kwargs w in
  collaborators_keep_converged X
  /\ converged (w_net w) = true
  /\ fst r = Raise (LoadflowNotConverged
                      "Power Flow nr did not converge after 1 iterations!")
  /\ converged (w_net (snd r)) = false.
Proof.
  cbv zeta. split; [exact sample_collaborators_keep_converged|].
  split; [reflexivity|]. split; [reflexivity|].
  exact (powerflow_recomputes_converged X no_kwargs
           (start (solved_before (options "nr" true 1 None)))
           sample_collaborators_keep_converged).
Defined.

(** The commit of the converged Newton-Raphson result of the one-branch
    network. *)
Lemma successful_commit_stores_and_extracts_witness :
  let w := start (set__ppc (Some one_branch_case)
                    (fresh (options "nr" true 10 None))) in
  let r := _ppci_to_net X stored_case w in
  merge_keeps_success X /\ results_keep_ppc X
  /\ collaborators_keep_converged X
  /\ success stored_case = Some 1%Z
  /\ (fst r = Ok tt
      /\ w_log (snd r)
         = [C_copy_results_ppci_to_ppc stored_case; C_extract_results;
            C_clean_up true]
      /\ converged (w_net (snd r)) = true
      /\ _ppc (w_net (snd r)) = Some stored_case).
Proof.
  cbv zeta.
  split; [exact sample_merge_keeps_success|].
  split; [exact sample_results_keep_ppc|].
  split; [exact sample_collaborators_keep_converged|].
  split; [reflexivity|].
  exact (successful_commit_stores_and_extracts X stored_case
           (start (set__ppc (Some one_branch_case)
                     (fresh (options "nr" true 10 None))))
           sample_merge_keeps_success sample_results_keep_ppc
           sample_collaborators_keep_converged eq_refl).
Defined.

(** The commit, on a network that holds a case, of a case no solver has
    written to. *)
Lemma commit_without_success_key_witness :
  let w := start (set__ppc (Some one_branch_case)
                    (fresh (options "nr" true 10 None))) in
  merge_keeps_success X
  /\ _ppc (w_net w) = Some one_branch_case
  /\ success one_branch_case = None
  /\ (_ppci_to_net X one_branch_case w
      = (Raise (KeyError "success"),
         mkWorld (w_net w) [C_copy_results_ppci_to_ppc one_branch_case])
      /\ converged (set__ppc (snd (merged X one_branch_case w)) (w_net w))
         = converged (w_net w)
      /\ exists ppc', snd (merged X one_branch_case w) = Some ppc').
Proof.
  cbv zeta. split; [exact sample_merge_keeps_success|].
  split; [reflexivity|]. split; [reflexivity|].
  exact (commit_without_success_key X one_branch_case one_branch_case
           (start (set__ppc (Some one_branch_case)
                     (fresh (options "nr" true 10 None))))
           sample_merge_keeps_success eq_refl eq_refl).
Defined.




(** A sweep solve called without keyword arguments. *)
Lemma verbose_defaults_to_zero_witness :
  let w := start (fresh (options "bfsw" true 10 None)) in
  no_kwargs !! "VERBOSE" = None
  /\ _powerflow X no_kwargs w = _powerflow X (<["VERBOSE" := 0%Z]> no_kwargs) w.
Proof.
  cbv zeta. split; [reflexivity|].
  exact (verbose_defaults_to_zero X no_kwargs
           (start (fresh (options "bfsw" true 10 None))) eq_refl).
Defined.

(** A full solve that does not converge, on a network whose flag was set. *)
Lemma full_solve_clears_OPF_converged_witness :
  let n := set_OPF_converged true (fresh (options "nr" true 1 None)) in
  collaborators_keep_OPF_converged X
  /\ OPF_converged n = true
  /\ OPF_converged (w_net (snd (_powerflow X no_kwargs (start n)))) = false.
Proof.
  cbv zeta. split; [exact sample_collaborators_keep_OPF_converged|].
  split; [reflexivity|].
  exact (full_solve_clears_OPF_converged X no_kwargs
           (start (set_OPF_converged true (fresh (options "nr" true 1 None))))
           sample_collaborators_keep_OPF_converged).
Defined.

(** A recycled solve on a network that was never solved, and on one whose
    stored [internal] holds [bus] and [gen] only. *)
Lemma recycled_solve_needs_prior_build_witness :
  let w := start (fresh (options "nr" true 10 (Some ∅))) in
  let w' := start (half_built (options "nr" true 10 (Some ∅))) in
  has_prior_build (w_net w) = false
  /\ has_prior_build (w_net w') = false
  /\ _recycled_powerflow X no_kwargs w
     = (Raise (TypeError "'NoneType' object is not subscriptable"), w)
  /\ _recycled_powerflow X no_kwargs w' = (Raise (KeyError "branch"), w')
  /\ (exists e,
         _recycled_powerflow X no_kwargs w' = (Raise e, w')
         /\ ((i_bus (internal half_built_case) = None
              /\ e = KeyError "bus")
             \/ (i_bus (internal half_built_case) <> None
                 /\ i_gen (internal half_built_case) = None
                 /\ e = KeyError "gen")
             \/ (i_bus (internal half_built_case) <> None
                 /\ i_gen (internal half_built_case) <> None
                 /\ i_branch (internal half_built_case) = None
                 /\ e = KeyError "branch")
             \/ (i_bus (internal half_built_case) <> None
                 /\ i_gen (internal half_built_case) <> None
                 /\ i_branch (internal half_built_case) <> None
                 /\ i_baseMVA (internal half_built_case) = None
                 /\ e = KeyError "baseMVA")))
  /\ (exists e,
         _recycled_powerflow X no_kwargs w = (Raise e, w)
         /\ e = TypeError "'NoneType' object is not subscriptable").
Proof.
  cbv zeta. split; [reflexivity|]. split; [reflexivity|].
  split; [reflexivity|]. split; [reflexivity|]. split.
  - exact (recycled_solve_needs_prior_build X no_kwargs
             (start (half_built (options "nr" true 10 (Some ∅)))) eq_refl).
  - exact (recycled_solve_needs_prior_build X no_kwargs
             (start (fresh (options "nr" true 10 (Some ∅)))) eq_refl).
Defined.

(** A recycled DC solve with the sweep algorithm and [gen] flagged. *)
Lemma recycled_dc_solve_succeeds_witness :
  let o := options "bfsw" false 10 (Some {[ "gen" := true ]}) in
  let w := start (solved_before o) in
  let r := _recycled_powerflow X no_kwargs w in
  exists ppci,
    dc_reports_success X /\ merge_keeps_success X
    /\ recycled_ppci (w_net w) = Some ppci
    /\ ac (_options (w_net w)) = false
    /\ (fst r = Ok tt
        /\ w_log (snd r)
           = [C_run_dc_pf ppci;
              C_copy_results_ppci_to_ppc (_run_dc_pf X ppci);
              C_extract_results; C_clean_up true]).
Proof.
  cbv zeta. eexists.
  split; [exact sample_dc_reports_success|].
  split; [exact sample_merge_keeps_success|].
  split; [reflexivity|]. split; [reflexivity|].
  exact (recycled_dc_solve_succeeds X no_kwargs
           (start (solved_before
                     (options "bfsw" false 10 (Some {[ "gen" := true ]}))))
           _ sample_dc_reports_success sample_merge_keeps_success
           eq_refl eq_refl).
Defined.

(** A recycled Newton solve with [bus_pq] and [trafo] flagged on a network
    whose branch lookup holds lines only. *)
Lemma recycled_updates_follow_flags_witness :
  let rc : gmap string bool := {[ "bus_pq" := true; "trafo" := true ]} in
  let lk : gmap string (Z * Z) := {[ "line" := (0%Z, 1%Z) ]} in
  let w := start (solved_before (options "nr" true 10 (Some rc))) in
  has_prior_build (w_net w) = true /\ ac (_options (w_net w)) = true
  /\ In (algorithm (_options (w_net w))) ["nr"; "iwamoto_nr"]
  /\ recycle (_options (w_net w)) = Some rc
  /\ _pd2ppc_lookups (w_net w) !! "branch" = Some lk
  /\ exists updates ppci w1,
      _recycled_powerflow X no_kwargs w
      = _ppci_to_net X
          (_run_newton_raphson_pf X ppci (_options (w_net w))) w1
      /\ w_log w1
         = (w_log w ++ updates
              ++ [C_ppc2ppci; C_run_newton_raphson_pf ppci])%list
      /\ (In C_calc_pq_elements_and_add_on_ppc updates
          <-> flag "bus_pq" rc = true)
      /\ (In C_calc_trafo_parameter updates
          <-> flag "trafo" rc = true /\ has_key "trafo" lk = true)
      /\ (In C_calc_trafo3w_parameter updates
          <-> flag "trafo" rc = true /\ has_key "trafo3w" lk = true)
      /\ (In C_build_gen_ppc updates <-> flag "gen" rc = true)
      /\ (In C_nan_to_num updates <-> flag "gen" rc = true)
      /\ forallb (fun c => negb (is_backend c)) updates = true
      /\ (flag "bus_pq" rc = false -> flag "trafo" rc = false ->
          flag "gen" rc = false -> updates = []).
Proof.
  cbv zeta.
  assert (In "nr" ["nr"; "iwamoto_nr"]) as Hname by (left; reflexivity).
  split; [reflexivity|]. split; [reflexivity|]. split; [exact Hname|].
  split; [reflexivity|]. split; [reflexivity|].
  exact (recycled_updates_follow_flags X no_kwargs
           (start (solved_before
                     (options "nr" true 10
                        (Some {[ "bus_pq" := true; "trafo" := true ]}))))
           {[ "bus_pq" := true; "trafo" := true ]}
           {[ "line" := (0%Z, 1%Z) ]}
           eq_refl eq_refl Hname eq_refl eq_refl).
Defined.

(** A recycled Newton solve with [gen] flagged. *)
Lemma recycled_case_shares_internal_witness :
  let rc : gmap string bool := {[ "gen" := true ]} in
  let lk : gmap string (Z * Z) := {[ "line" := (0%Z, 1%Z) ]} in
  let w := start (solved_before (options "iwamoto_nr" true 10 (Some rc))) in
  has_prior_build (w_net w) = true /\ ac (_options (w_net w)) = true
  /\ In (algorithm (_options (w_net w))) ["nr"; "iwamoto_nr"]
  /\ recycle (_options (w_net w)) = Some rc
  /\ _pd2ppc_lookups (w_net w) !! "branch" = Some lk
  /\ exists ppc ppci w1,
      _recycled_powerflow X no_kwargs w
      = _ppci_to_net X
          (_run_newton_raphson_pf X ppci (_options (w_net w))) w1
      /\ _ppc (w_net w1) = Some ppc
      /\ internal ppci = internal ppc.
Proof.
  cbv zeta.
  assert (In "iwamoto_nr" ["nr"; "iwamoto_nr"]) as Hname
    by (right; left; reflexivity).
  split; [reflexivity|]. split; [reflexivity|]. split; [exact Hname|].
  split; [reflexivity|]. split; [reflexivity|].
  exact (recycled_case_shares_internal X no_kwargs
           (start (solved_before
                     (options "iwamoto_nr" true 10
                        (Some {[ "gen" := true ]}))))
           {[ "gen" := true ]} {[ "line" := (0%Z, 1%Z) ]}
           eq_refl eq_refl Hname eq_refl eq_refl).
Defined.

(** A recycled Newton solve with [bus_pq] and [trafo] flagged on a network
    without a branch lookup. *)
Lemma recycled_trafo_needs_branch_lookup_witness :
  let rc : gmap string bool := {[ "bus_pq" := true; "trafo" := true ]} in
  let w := start (solved_without_lookups (options "nr" true 10 (Some rc))) in
  let r := _recycled_powerflow X no_kwargs w in
  has_prior_build (w_net w) = true /\ ac (_options (w_net w)) = true
  /\ In (algorithm (_options (w_net w))) ["nr"; "iwamoto_nr"]
  /\ recycle (_options (w_net w)) = Some rc
  /\ flag "trafo" rc = true
  /\ _pd2ppc_lookups (w_net w) !! "branch" = None
  /\ (fst r = Raise (KeyError "branch")
      /\ w_log (snd r) = [C_calc_pq_elements_and_add_on_ppc]).
Proof.
  cbv zeta.
  assert (In "nr" ["nr"; "iwamoto_nr"]) as Hname by (left; reflexivity).
  split; [reflexivity|]. split; [reflexivity|]. split; [exact Hname|].
  split; [reflexivity|]. split; [reflexivity|]. split; [reflexivity|].
  exact (recycled_trafo_needs_branch_lookup X no_kwargs
           (start (solved_without_lookups
                     (options "nr" true 10
                        (Some {[ "bus_pq" := true; "trafo" := true ]}))))
           {[ "bus_pq" := true; "trafo" := true ]}
           eq_refl eq_refl Hname eq_refl eq_refl eq_refl).
Defined.

(** A recycled Newton solve whose options carry no flag dictionary. *)
Lemma recycled_newton_needs_flags_witness :
  let w := start (solved_before (options "nr" true 10 None)) in
  has_prior_build (w_net w) = true /\ ac (_options (w_net w)) = true
  /\ In (algorithm (_options (w_net w))) ["nr"; "iwamoto_nr"]
  /\ recycle (_options (w_net w)) = None
  /\ _recycled_powerflow X no_kwargs w
     = (Raise (TypeError "argument of type 'NoneType' is not iterable"), w).
Proof.
  cbv zeta.
  assert (In "nr" ["nr"; "iwamoto_nr"]) as Hname by (left; reflexivity).
  split; [reflexivity|]. split; [reflexivity|]. split; [exact Hname|].
  split; [reflexivity|].
  exact (recycled_newton_needs_flags X no_kwargs
           (start (solved_before (options "nr" true 10 None)))
           eq_refl eq_refl Hname eq_refl).
Defined.

End Instances.
